(** * MQL5 Architect: the prompt adapters, the PDF adapter and the view state

    A shallow embedding of [services/geminiService.ts], [utils/pdfHelper.ts]
    and the event handlers of [App.tsx].

    - JavaScript strings are sequences of UTF-16 code units: [list N].
    - [Date.now()] is an input of the handlers: every call site receives the
      reading it obtained as an argument.
    - An [await] splits a handler in two: the part that runs when the event
      fires, and the continuation that runs when the promise settles.  The
      continuation keeps the values its closure captured.
    - Every event is handled against the state of the latest render, and
      a handler may fire in any state: what the markup disables is not
      relied on. *)

From Stdlib Require Import String Ascii DecimalString DecimalN.
From Stdlib Require Import ZArith NArith Lia Bool List.
Import ListNotations.

(* ================================================================== *)
(** ** The JavaScript built-ins used by the code *)

Module JS.

Definition jsstring := list N.

(** A string literal of the source (ASCII only). *)
Definition lit (s : string) : jsstring :=
  map N_of_ascii (list_ascii_of_string s).

Definition nl : jsstring := [10%N].
Definition dq : jsstring := [34%N].

(** Lines of a template literal, joined by line feeds. *)
Fixpoint unlines (ls : list jsstring) : jsstring :=
  match ls with
  | [] => []
  | [l] => l
  | l :: rest => l ++ nl ++ unlines rest
  end.

(** Truthiness of a string: the empty string is falsy. *)
Definition truthy (s : jsstring) : bool :=
  match s with [] => false | _ :: _ => true end.

(** Truthiness of an optional string ([undefined], [null] and [''] are
    falsy). *)
Definition truthy_opt (o : option jsstring) : bool :=
  match o with Some s => truthy s | None => false end.

(** [a || b] on strings where [a] may be missing. *)
Definition or_else (o : option jsstring) (d : jsstring) : jsstring :=
  match o with
  | Some s => if truthy s then s else d
  | None => d
  end.

(** White space and line terminators: what [trim] strips and what [\s]
    matches. *)
Definition is_space (c : N) : bool :=
  ((9 <=? c) && (c <=? 13) || (c =? 32) || (c =? 160) || (c =? 5760)
   || (8192 <=? c) && (c <=? 8202) || (c =? 8232) || (c =? 8233)
   || (c =? 8239) || (c =? 8287) || (c =? 12288) || (c =? 65279))%N.

Fixpoint trimStart (s : jsstring) : jsstring :=
  match s with
  | c :: r => if is_space c then trimStart r else s
  | [] => []
  end.

(** Only white space (or nothing at all). *)
Definition all_space (s : jsstring) : bool := forallb is_space s.

Definition trimEnd (s : jsstring) : jsstring := rev (trimStart (rev s)).

Definition trim (s : jsstring) : jsstring := trimEnd (trimStart s).

Fixpoint eqb_str (a b : jsstring) : bool :=
  match a, b with
  | [], [] => true
  | x :: a', y :: b' => (x =? y)%N && eqb_str a' b'
  | _, _ => false
  end.

Fixpoint startsWith (p s : jsstring) : bool :=
  match p, s with
  | [], _ => true
  | x :: p', y :: s' => (x =? y)%N && startsWith p' s'
  | _ :: _, [] => false
  end.

(** [s] ends with [p]. *)
Definition has_suffix (p s : jsstring) : bool := startsWith (rev p) (rev s).

(** Relative index of [slice]: negative counts from the end, everything is
    clamped to [0 .. len]. *)
Definition rel_index (len i : Z) : Z :=
  if (i <? 0)%Z then Z.max (len + i) 0 else Z.min i len.

(** [xs.slice(start, end)] for arrays and strings alike; [end_ = None] is an
    omitted second argument. *)
Definition slice {A : Type} (start : Z) (end_ : option Z) (xs : list A)
  : list A :=
  let len := Z.of_nat (length xs) in
  let from := rel_index len start in
  let to := match end_ with Some e => rel_index len e | None => len end in
  firstn (Z.to_nat (Z.max (to - from) 0)) (skipn (Z.to_nat from) xs).

(** [xs.join(sep)] on an array of strings. *)
Fixpoint join (sep : jsstring) (xs : list jsstring) : jsstring :=
  match xs with
  | [] => []
  | [x] => x
  | x :: rest => x ++ sep ++ join sep rest
  end.

(** [n.toString()] for an integer-valued number (decimal digits, a minus
    sign when negative). *)
Definition toString (z : Z) : jsstring :=
  let digits := lit (NilEmpty.string_of_uint (N.to_uint (Z.abs_N z))) in
  if (z <? 0)%Z then lit "-" ++ digits else digits.

(** [s.replace(/^<p>\s*/, '')]: the pattern is anchored at the start, so
    it is tried at position 0 only; [\s*] is greedy. *)
Definition replace_leading (p s : jsstring) : jsstring :=
  if startsWith p s then trimStart (skipn (length p) s) else s.

(** Does [\s*<p>$] match the whole of [s]?  White space never matches the
    first unit of [p] below, so backtracking into [\s*] cannot help. *)
Definition matches_ws_then (p s : jsstring) : bool :=
  eqb_str (trimStart s) p.

(** [s.replace(/\s*<p>$/, '')]: the leftmost position where the pattern
    matches up to the end of the input is cut off; no match, no change. *)
Fixpoint replace_trailing (p s : jsstring) : jsstring :=
  if matches_ws_then p s then []
  else match s with
       | [] => []
       | c :: r => c :: replace_trailing p r
       end.

(** [s.replace(p, r)] with a string pattern [p]: the first occurrence only
    is replaced. *)
Fixpoint replace_first (p r s : jsstring) : jsstring :=
  if startsWith p s then r ++ skipn (length p) s
  else match s with
       | [] => []
       | c :: rest => c :: replace_first p r rest
       end.

(** A thrown value: only its [message] is ever read. *)
Record JsError := mkError { message : option jsstring }.

Definition Error (msg : jsstring) : JsError := mkError (Some msg).

(** The outcome of an awaited promise or of a call that may throw. *)
Inductive result (A : Type) :=
| Ok (a : A)
| Throw (e : JsError).
Arguments Ok {A} a.
Arguments Throw {A} e.

(** Sequencing of steps that may throw: the first exception ends the
    block. *)
Definition bind {A B : Type} (c : result A) (k : A -> result B) : result B :=
  match c with
  | Ok a => k a
  | Throw e => Throw e
  end.

(** [try { body } catch (error) { throw replacement }] *)
Definition try_catch_throw {A : Type} (body : result A) (replacement : JsError)
  : result A :=
  match body with
  | Ok a => Ok a
  | Throw _ => Throw replacement
  end.

(** A [File] of the browser: its name, its MIME type, and what
    [file.arrayBuffer()] settles to. *)
Record File := mkFile {
  file_name : jsstring;
  file_type : jsstring;
  arrayBuffer : result (list N)
}.

End JS.

Import JS.

(* ================================================================== *)
(** ** types.ts *)

Inductive CodeType := EXPERT_ADVISOR | INDICATOR | SCRIPT | LIBRARY.

Definition CodeType_value (t : CodeType) : jsstring :=
  match t with
  | EXPERT_ADVISOR => lit "Expert Advisor"
  | INDICATOR => lit "Indicator"
  | SCRIPT => lit "Script"
  | LIBRARY => lit "Library"
  end.

Record GenerationHistoryItem := mkHistoryItem {
  hi_id : jsstring;
  hi_prompt : jsstring;
  hi_type : CodeType;
  hi_code : jsstring;
  hi_timestamp : Z
}.

Inductive ChatRole := user | model.

Record ChatMessage := mkChatMessage {
  id : jsstring;
  role : ChatRole;
  content : jsstring;
  hasCodeUpdate : option bool;
  timestamp : Z
}.

(* ================================================================== *)
(** ** services/geminiService.ts *)

Module GeminiService.

Definition fence : jsstring := lit "```".
Definition fence_json : jsstring := lit "```json".

(** [cleanJsonOutput]: helper to clean JSON markdown. *)
Definition cleanJsonOutput (text : jsstring) : jsstring :=
  let cleanText := trim text in
  if startsWith fence_json cleanText then
    replace_trailing fence (replace_leading fence_json cleanText)
  else if startsWith fence cleanText then
    replace_trailing fence (replace_leading fence cleanText)
  else cleanText.

Definition SYSTEM_INSTRUCTION : jsstring :=
  unlines [
    [];
    lit "You are an elite MQL5 (MetaQuotes Language 5) developer with over 15 years of experience in algorithmic trading. ";
    lit "Your task is to generate high-performance, strictly typed, and error-free MQL5 code based on user requests.";
    [];
    lit "Guidelines:";
    lit "1. **Syntax**: Use modern MQL5 syntax. Ensure all variables are typed correctly.";
    lit "2. **Structure**: ";
    lit "   - Include strict property definitions (#property strict, #property copyright, etc.).";
    lit "   - Use standard event handlers: OnInit(), OnDeinit(), OnTick() (for EAs) or OnCalculate() (for Indicators).";
    lit "3. **Safety**: Implement basic error checking for trade operations (CheckReturnKey).";
    lit "4. **Comments**: Add concise but helpful comments explaining the logic.";
    lit "5. **Output Format**: You must return a JSON object containing the 'code' (the raw MQL5 source code) and a short 'explanation' of what the code does.";
    lit "6. **Inputs**: Define input variables (input int, input double) for parameters that the user might want to optimize (e.g., LotSize, MovingAveragePeriod).";
    [];
    lit "Focus on creating production-ready code.";
    []
  ].

Definition CHAT_SYSTEM_INSTRUCTION : jsstring :=
  unlines [
    [];
    lit "You are an intelligent MQL5 coding assistant. You have access to the user's current MQL5 code.";
    lit "The user may ask you to explain the code, fix errors, or modify the logic.";
    [];
    lit "Rules:";
    lit "1. **Analyze**: Look at the " ++ dq ++ lit "Current Code" ++ dq ++ lit " provided in the context.";
    lit "2. **Modify**: If the user asks to change, fix, or update the code, you MUST provide the FULL updated MQL5 code in your response.";
    lit "3. **Explain**: If the user just asks a question without requesting code changes, do not provide the " ++ dq ++ lit "updatedCode" ++ dq ++ lit " field.";
    lit "4. **Format**: You must return a JSON object.";
    [];
    lit "JSON Schema:";
    lit "{";
    lit "  " ++ dq ++ lit "reply" ++ dq ++ lit ": " ++ dq ++ lit "Your conversational response to the user." ++ dq ++ lit ",";
    lit "  " ++ dq ++ lit "updatedCode" ++ dq ++ lit ": " ++ dq ++ lit "The full, complete MQL5 code string (only if changes are needed, otherwise null or empty string)." ++ dq;
    lit "}";
    []
  ].

(** The request handed to [ai.models.generateContent].  Every field of the
    response schema has type STRING. *)
Record SchemaField := mkField {
  sf_name : jsstring;
  sf_description : jsstring;
  sf_nullable : bool
}.

Record GenerateContentParameters := mkRequest {
  req_model : jsstring;
  contents : jsstring;
  systemInstruction : jsstring;
  thinkingBudget : option Z;
  responseMimeType : jsstring;
  properties : list SchemaField;
  required : list jsstring
}.

Record GenerateContentResponse := mkResponse { text : option jsstring }.

(** The prompt of [generateMql5] before the documentation section. *)
Definition generate_head (prompt : jsstring) (type : CodeType) : jsstring :=
  unlines [
    [];
    lit "    Create an MQL5 " ++ CodeType_value type ++ lit ".";
    lit "    ";
    lit "    User Requirement:";
    lit "    " ++ prompt;
    lit "  "
  ].

Definition generate_doc_section (documentationContext : jsstring) : jsstring :=
  unlines [
    [];
    lit "    ";
    lit "    REFERENCE DOCUMENTATION:";
    lit "    The user has provided the following documentation/context to assist with this task. ";
    lit "    Use the functions, syntax, and libraries defined in this documentation where applicable, especially if they differ from standard libraries.";
    lit "    ";
    lit "    --- BEGIN DOCUMENTATION ---";
    lit "    " ++ slice 0 (Some 500000%Z) documentationContext ++ lit " ";
    lit "    --- END DOCUMENTATION ---";
    lit "    (Note: Documentation may be truncated if it exceeds limits, prioritize recent API usage)";
    lit "    "
  ].

Definition generate_tail : jsstring :=
  unlines [
    [];
    lit "    Ensure the code is complete and compilable in MetaEditor.";
    lit "  "
  ].

(** [fullPrompt] of [generateMql5]. *)
Definition generate_fullPrompt (prompt : jsstring) (type : CodeType)
    (documentationContext : option jsstring) : jsstring :=
  let fullPrompt := generate_head prompt type in
  let fullPrompt :=
    match documentationContext with
    | Some d => if truthy d then fullPrompt ++ generate_doc_section d
                else fullPrompt
    | None => fullPrompt
    end in
  fullPrompt ++ generate_tail.

Definition generate_request (prompt : jsstring) (type : CodeType)
    (documentationContext : option jsstring) : GenerateContentParameters :=
  {| req_model := lit "gemini-3-pro-preview";
     contents := generate_fullPrompt prompt type documentationContext;
     systemInstruction := SYSTEM_INSTRUCTION;
     thinkingBudget := Some 2048%Z;
     responseMimeType := lit "application/json";
     properties :=
       [ mkField (lit "code")
           (lit "The complete, compilable MQL5 source code.") false;
         mkField (lit "explanation")
           (lit "A brief summary of the strategy or logic implemented.")
           false ];
     required := [lit "code"; lit "explanation"] |}.

(** One line of the conversation history. *)
Definition context_line (msg : ChatMessage) : jsstring :=
  (match role msg with user => lit "User" | model => lit "Assistant" end)
    ++ lit ": " ++ content msg.

(** [conversationContext] of [chatWithCode]. *)
Definition conversationContext (chatHistory : list ChatMessage) : jsstring :=
  join nl (map context_line (slice (-10) None chatHistory)).

Definition chat_head (currentCode : jsstring)
    (chatHistory : list ChatMessage) (userMessage : jsstring) : jsstring :=
  unlines [
    [];
    lit "    CURRENT MQL5 CODE CONTEXT:";
    lit "    ```mql5";
    lit "    " ++ currentCode;
    lit "    ```";
    [];
    lit "    CONVERSATION HISTORY:";
    lit "    " ++ conversationContext chatHistory;
    [];
    lit "    USER REQUEST:";
    lit "    " ++ userMessage;
    lit "  "
  ].

Definition chat_doc_section (documentationContext : jsstring) : jsstring :=
  unlines [
    [];
    lit "    REFERENCE DOCUMENTATION:";
    lit "    " ++ slice 0 (Some 100000%Z) documentationContext;
    lit "    "
  ].

(** [fullPrompt] of [chatWithCode]. *)
Definition chat_fullPrompt (currentCode : jsstring)
    (chatHistory : list ChatMessage) (userMessage : jsstring)
    (documentationContext : option jsstring) : jsstring :=
  let fullPrompt := chat_head currentCode chatHistory userMessage in
  match documentationContext with
  | Some d => if truthy d then fullPrompt ++ chat_doc_section d
              else fullPrompt
  | None => fullPrompt
  end.

Definition chat_request (currentCode : jsstring)
    (chatHistory : list ChatMessage) (userMessage : jsstring)
    (documentationContext : option jsstring) : GenerateContentParameters :=
  {| req_model := lit "gemini-3-pro-preview";
     contents :=
       chat_fullPrompt currentCode chatHistory userMessage
         documentationContext;
     systemInstruction := CHAT_SYSTEM_INSTRUCTION;
     thinkingBudget := None;
     responseMimeType := lit "application/json";
     properties :=
       [ mkField (lit "reply") (lit "The conversational response.") false;
         mkField (lit "updatedCode")
           (lit "The complete updated code if modifications were made.")
           true ];
     required := [lit "reply"] |}.

Definition NO_RESPONSE : JsError := Error (lit "No response generated").

Section Collaborators.

(** The hosted model behind [ai.models.generateContent], and
    [JSON.parse]: what they answer is not decided by this code. *)
Variable generateContent :
  GenerateContentParameters -> result GenerateContentResponse.
Variable JsValue : Type.
Variable JSON_parse : jsstring -> result JsValue.

(** The [try] block shared by both adapters once the request is built;
    the [catch] logs and rethrows what it caught. *)
Definition request_and_parse (req : GenerateContentParameters)
  : result JsValue :=
  match generateContent req with
  | Throw error => Throw error
  | Ok response =>
      match text response with
      | Some t =>
          if truthy t then
            match JSON_parse (cleanJsonOutput t) with
            | Ok v => Ok v
            | Throw error => Throw error
            end
          else Throw NO_RESPONSE
      | None => Throw NO_RESPONSE
      end
  end.

Definition generateMql5 (prompt : jsstring) (type : CodeType)
    (documentationContext : option jsstring) : result JsValue :=
  request_and_parse (generate_request prompt type documentationContext).

Definition chatWithCode (currentCode : jsstring)
    (chatHistory : list ChatMessage) (userMessage : jsstring)
    (documentationContext : option jsstring) : result JsValue :=
  request_and_parse
    (chat_request currentCode chatHistory userMessage
       documentationContext).

End Collaborators.

Arguments request_and_parse generateContent {JsValue} JSON_parse req.
Arguments generateMql5 generateContent {JsValue} JSON_parse
  prompt type documentationContext.
Arguments chatWithCode generateContent {JsValue} JSON_parse
  currentCode chatHistory userMessage documentationContext.

End GeminiService.

(* ================================================================== *)
(** ** utils/pdfHelper.ts *)

Module PdfHelper.

Notation "x <- c ;; k" := (bind c (fun x => k))
  (at level 61, c at next level, right associativity).

(** What pdf.js hands back: a document reports its page count and gives
    out pages; a page gives out its text items. *)
Record TextItem := mkItem { str : jsstring }.
Record PdfPage := mkPage { getTextContent : result (list TextItem) }.
Record PdfDocument := mkDoc {
  numPages : Z;
  getPage : Z -> result PdfPage
}.

Definition PDF_ERROR : JsError :=
  Error (lit "Failed to extract text from PDF. The file might be corrupted or encrypted.").

(** [textContent.items.map(item => item.str).join(' ')] *)
Definition pageText (items : list TextItem) : jsstring :=
  join (lit " ") (map str items).

(** What one iteration appends to [fullText]. *)
Definition page_block (i : Z) (text : jsstring) : jsstring :=
  unlines [ []; lit "--- Page " ++ toString i ++ lit " ---"; text ].

(** The [for] loop: [i] is the loop variable, [remaining] the number of
    iterations left before [i <= totalPages] fails. *)
Fixpoint page_loop (doc : PdfDocument) (remaining : nat) (i : Z)
    (fullText : jsstring) : result jsstring :=
  match remaining with
  | O => Ok fullText
  | S k =>
      page <- getPage doc i ;;
      items <- getTextContent page ;;
      page_loop doc k (i + 1) (fullText ++ page_block i (pageText items))
  end.

Section PdfJs.

(** [pdf.getDocument({ data }).promise] *)
Variable getDocument : list N -> result PdfDocument.

Definition extractTextFromPdf (file : File) : result jsstring :=
  try_catch_throw
    (data <- arrayBuffer file ;;
     doc <- getDocument data ;;
     let totalPages := numPages doc in
     page_loop doc (Z.to_nat totalPages) 1 [])
    PDF_ERROR.

End PdfJs.

(** The text of pages [first], [first + 1], ... each behind its
    separator. *)
Fixpoint page_blocks (first : Z) (texts : list jsstring) : jsstring :=
  match texts with
  | [] => []
  | t :: rest => page_block first t ++ page_blocks (first + 1) rest
  end.

(** [texts] is what the pages [first], [first + 1], ... of [doc] give. *)
Fixpoint pages_read (doc : PdfDocument) (first : Z) (texts : list jsstring)
  : Prop :=
  match texts with
  | [] => True
  | t :: rest =>
      (exists page items,
          getPage doc first = Ok page /\
          getTextContent page = Ok items /\
          t = pageText items) /\
      pages_read doc (first + 1) rest
  end.

End PdfHelper.

(* ================================================================== *)
(** ** App.tsx: the view state and its event handlers *)

Module App.

Inductive Tab := tab_history | tab_chat.

(** One field per [useState] of the component. *)
Record State := mkState {
  prompt : jsstring;
  codeType : CodeType;
  isGenerating : bool;
  currentCode : jsstring;
  explanation : jsstring;
  error : option jsstring;
  activeTab : Tab;
  history : list GenerationHistoryItem;
  chatMessages : list ChatMessage;
  chatInput : jsstring;
  isChatLoading : bool;
  uploadedFile : option File;
  pdfContent : jsstring;
  isParsingPdf : bool;
  isDragging : bool
}.

Definition initialState : State :=
  {| prompt := [];
     codeType := EXPERT_ADVISOR;
     isGenerating := false;
     currentCode := lit "// Your MQL5 code will appear here...";
     explanation := [];
     error := None;
     activeTab := tab_chat;
     history := [];
     chatMessages := [];
     chatInput := [];
     isChatLoading := false;
     uploadedFile := None;
     pdfContent := [];
     isParsingPdf := false;
     isDragging := false |}.

(** The state setters. *)
Definition setPrompt (v : jsstring) (st : State) : State :=
  mkState v (codeType st) (isGenerating st) (currentCode st) (explanation
    st) (error st) (activeTab st) (history st) (chatMessages st)
    (chatInput st) (isChatLoading st) (uploadedFile st) (pdfContent st)
    (isParsingPdf st) (isDragging st).

Definition setCodeType (v : CodeType) (st : State) : State :=
  mkState (prompt st) v (isGenerating st) (currentCode st) (explanation
    st) (error st) (activeTab st) (history st) (chatMessages st)
    (chatInput st) (isChatLoading st) (uploadedFile st) (pdfContent st)
    (isParsingPdf st) (isDragging st).

Definition setIsGenerating (v : bool) (st : State) : State :=
  mkState (prompt st) (codeType st) v (currentCode st) (explanation st)
    (error st) (activeTab st) (history st) (chatMessages st) (chatInput
    st) (isChatLoading st) (uploadedFile st) (pdfContent st) (isParsingPdf
    st) (isDragging st).

Definition setCurrentCode (v : jsstring) (st : State) : State :=
  mkState (prompt st) (codeType st) (isGenerating st) v (explanation st)
    (error st) (activeTab st) (history st) (chatMessages st) (chatInput
    st) (isChatLoading st) (uploadedFile st) (pdfContent st) (isParsingPdf
    st) (isDragging st).

Definition setExplanation (v : jsstring) (st : State) : State :=
  mkState (prompt st) (codeType st) (isGenerating st) (currentCode st) v
    (error st) (activeTab st) (history st) (chatMessages st) (chatInput
    st) (isChatLoading st) (uploadedFile st) (pdfContent st) (isParsingPdf
    st) (isDragging st).

Definition setError (v : option jsstring) (st : State) : State :=
  mkState (prompt st) (codeType st) (isGenerating st) (currentCode st)
    (explanation st) v (activeTab st) (history st) (chatMessages st)
    (chatInput st) (isChatLoading st) (uploadedFile st) (pdfContent st)
    (isParsingPdf st) (isDragging st).

Definition setActiveTab (v : Tab) (st : State) : State :=
  mkState (prompt st) (codeType st) (isGenerating st) (currentCode st)
    (explanation st) (error st) v (history st) (chatMessages st)
    (chatInput st) (isChatLoading st) (uploadedFile st) (pdfContent st)
    (isParsingPdf st) (isDragging st).

Definition setHistory (v : list GenerationHistoryItem) (st : State) : State :=
  mkState (prompt st) (codeType st) (isGenerating st) (currentCode st)
    (explanation st) (error st) (activeTab st) v (chatMessages st)
    (chatInput st) (isChatLoading st) (uploadedFile st) (pdfContent st)
    (isParsingPdf st) (isDragging st).

Definition setChatMessages (v : list ChatMessage) (st : State) : State :=
  mkState (prompt st) (codeType st) (isGenerating st) (currentCode st)
    (explanation st) (error st) (activeTab st) (history st) v (chatInput
    st) (isChatLoading st) (uploadedFile st) (pdfContent st) (isParsingPdf
    st) (isDragging st).

Definition setChatInput (v : jsstring) (st : State) : State :=
  mkState (prompt st) (codeType st) (isGenerating st) (currentCode st)
    (explanation st) (error st) (activeTab st) (history st) (chatMessages
    st) v (isChatLoading st) (uploadedFile st) (pdfContent st)
    (isParsingPdf st) (isDragging st).

Definition setIsChatLoading (v : bool) (st : State) : State :=
  mkState (prompt st) (codeType st) (isGenerating st) (currentCode st)
    (explanation st) (error st) (activeTab st) (history st) (chatMessages
    st) (chatInput st) v (uploadedFile st) (pdfContent st) (isParsingPdf
    st) (isDragging st).

Definition setUploadedFile (v : option File) (st : State) : State :=
  mkState (prompt st) (codeType st) (isGenerating st) (currentCode st)
    (explanation st) (error st) (activeTab st) (history st) (chatMessages
    st) (chatInput st) (isChatLoading st) v (pdfContent st) (isParsingPdf
    st) (isDragging st).

Definition setPdfContent (v : jsstring) (st : State) : State :=
  mkState (prompt st) (codeType st) (isGenerating st) (currentCode st)
    (explanation st) (error st) (activeTab st) (history st) (chatMessages
    st) (chatInput st) (isChatLoading st) (uploadedFile st) v
    (isParsingPdf st) (isDragging st).

Definition setIsParsingPdf (v : bool) (st : State) : State :=
  mkState (prompt st) (codeType st) (isGenerating st) (currentCode st)
    (explanation st) (error st) (activeTab st) (history st) (chatMessages
    st) (chatInput st) (isChatLoading st) (uploadedFile st) (pdfContent
    st) v (isDragging st).

Definition setIsDragging (v : bool) (st : State) : State :=
  mkState (prompt st) (codeType st) (isGenerating st) (currentCode st)
    (explanation st) (error st) (activeTab st) (history st) (chatMessages
    st) (chatInput st) (isChatLoading st) (uploadedFile st) (pdfContent
    st) (isParsingPdf st) v.

(** Functional updates: [setHistory(prev => ...)] and
    [setChatMessages(prev => ...)]. *)
Definition updHistory
    (f : list GenerationHistoryItem -> list GenerationHistoryItem)
    (st : State) : State :=
  setHistory (f (history st)) st.

Definition updChatMessages (f : list ChatMessage -> list ChatMessage)
    (st : State) : State :=
  setChatMessages (f (chatMessages st)) st.

(** Statements of a handler in source order. *)
Notation "st |> f" := (f st) (at level 45, left associativity, only parsing).


(** What the adapters resolve to, as their signatures declare it. *)
Record GenerateResult := mkGenerateResult {
  gr_code : jsstring;
  gr_explanation : jsstring
}.

Record ChatResult := mkChatResult {
  reply : jsstring;
  updatedCode : option jsstring
}.

(** A promise a handler is waiting on, with the arguments of the call that
    created it and the values the continuation's closure holds. *)
Inductive Pending :=
| PendingGenerate (prompt : jsstring) (codeType : CodeType)
    (pdfContent : jsstring)
| PendingChat (contextCode : jsstring) (chatHistory : list ChatMessage)
    (userMessage : jsstring) (pdfContent : jsstring)
| PendingPdf (file : File).

(** *** processFile *)

Definition processFile_call (file : File) (st : State)
  : State * option Pending :=
  if negb (eqb_str (file_type file) (lit "application/pdf")) then
    (st |> setError (Some (lit "Please upload a valid PDF file.")), None)
  else
    (st |> setUploadedFile (Some file)
        |> setIsParsingPdf true
        |> setError None,
     Some (PendingPdf file)).

(** After [await extractTextFromPdf(file)]: the [try] or the [catch]
    branch, then [finally].  (Clearing the file input's value touches the
    DOM only.) *)
Definition processFile_settled (outcome : result jsstring) (st : State)
  : State :=
  (match outcome with
   | Ok text => st |> setPdfContent text
   | Throw err =>
       st |> setError (Some (or_else (message err)
                               (lit "Failed to parse PDF.")))
          |> setUploadedFile None
          |> setPdfContent []
   end)
  |> setIsParsingPdf false.

(** [event.target.files?.[0]] may be missing. *)
Definition handleFileChange (file : option File) (st : State)
  : State * option Pending :=
  match file with
  | Some f => processFile_call f st
  | None => (st, None)
  end.

Definition handleDragEnter (st : State) : State := st |> setIsDragging true.

(** [inside]: [e.currentTarget.contains(e.relatedTarget)]. *)
Definition handleDragLeave (inside : bool) (st : State) : State :=
  if inside then st else st |> setIsDragging false.

Definition handleDragOver (st : State) : State := st.

Definition handleDrop (file : option File) (st : State)
  : State * option Pending :=
  let st := st |> setIsDragging false in
  match file with
  | Some f => processFile_call f st
  | None => (st, None)
  end.

Definition removeFile (st : State) : State :=
  st |> setUploadedFile None |> setPdfContent [].

(** *** handleGenerate *)

Definition ANALYZING : jsstring :=
  unlines [
    lit "// Analyzing requirements...";
    lit "// Reading documentation context...";
    lit "// Designing trading logic...";
    lit "// Generating MQL5 structures..."
  ].

Definition handleGenerate_call (st : State) : State * option Pending :=
  if negb (truthy (trim (prompt st))) then (st, None)
  else
    (st |> setIsGenerating true
        |> setError None
        |> setExplanation []
        |> setActiveTab tab_chat
        |> setCurrentCode ANALYZING,
     Some (PendingGenerate (prompt st) (codeType st) (pdfContent st))).

(** After [await generateMql5(...)].  [prompt] and [codeType] are the
    closure's; [now1 .. now4] are the four [Date.now()] readings in source
    order. *)
Definition handleGenerate_settled (prompt : jsstring) (codeType : CodeType)
    (outcome : result GenerateResult) (now1 now2 now3 now4 : Z)
    (st : State) : State :=
  (match outcome with
   | Ok result =>
       let newHistoryItem :=
         {| hi_id := toString now1;
            hi_prompt := prompt;
            hi_type := codeType;
            hi_code := gr_code result;
            hi_timestamp := now2 |} in
       st |> setCurrentCode (gr_code result)
          |> setExplanation (gr_explanation result)
          |> updHistory (fun prev => newHistoryItem :: prev)
          |> setChatMessages
               [ {| id := toString now3;
                    role := model;
                    content :=
                      lit "I've generated the " ++ CodeType_value codeType
                        ++ lit " code based on your request. "
                        ++ gr_explanation result;
                    hasCodeUpdate := None;
                    timestamp := now4 |} ]
   | Throw err =>
       st |> setError
               (Some (or_else (message err)
                        (lit "Failed to generate code. Please try again.")))
          |> setCurrentCode (lit "// Error generating code.")
   end)
  |> setIsGenerating false.

(** *** handleChatSubmit *)

Definition handleChatSubmit_call (now1 now2 : Z) (st : State)
  : State * option Pending :=
  if negb (truthy (trim (chatInput st))) || isChatLoading st then (st, None)
  else
    let userMsg :=
      {| id := toString now1;
         role := user;
         content := chatInput st;
         hasCodeUpdate := None;
         timestamp := now2 |} in
    let contextCode :=
      if startsWith (lit "// Your MQL5 code") (currentCode st) then []
      else currentCode st in
    (st |> updChatMessages (fun prev => prev ++ [userMsg])
        |> setChatInput []
        |> setIsChatLoading true,
     Some (PendingChat contextCode (chatMessages st) (content userMsg)
             (pdfContent st))).

(** After [await chatWithCode(...)]. *)
Definition handleChatSubmit_settled (outcome : result ChatResult)
    (now1 now2 : Z) (st : State) : State :=
  (match outcome with
   | Ok result =>
       let aiMsg :=
         {| id := toString (now1 + 1);
            role := model;
            content := reply result;
            hasCodeUpdate := Some (truthy_opt (updatedCode result));
            timestamp := now2 |} in
       let st := st |> updChatMessages (fun prev => prev ++ [aiMsg]) in
       match updatedCode result with
       | Some c => if truthy c then st |> setCurrentCode c else st
       | None => st
       end
   | Throw _ =>
       let errorMsg :=
         {| id := toString now1;
            role := model;
            content :=
              lit "I encountered an error while processing your request. Please try again.";
            hasCodeUpdate := None;
            timestamp := now2 |} in
       st |> updChatMessages (fun prev => prev ++ [errorMsg])
   end)
  |> setIsChatLoading false.

(** *** restoreFromHistory *)

Definition restoreFromHistory (item : GenerationHistoryItem)
    (now1 now2 : Z) (st : State) : State :=
  st |> setPrompt (hi_prompt item)
     |> setCodeType (hi_type item)
     |> setCurrentCode (hi_code item)
     |> setExplanation (lit "// Restored from history")
     |> setChatMessages
          [ {| id := toString now1;
               role := model;
               content := lit "Restored version: " ++ hi_prompt item;
               hasCodeUpdate := None;
               timestamp := now2 |} ]
     |> setActiveTab tab_chat.

(** *** The session: view state plus the promises in flight *)

Record Session := mkSession {
  ui : State;
  inflight : list Pending
}.

Definition initialSession : Session :=
  {| ui := initialState; inflight := [] |}.

(** What can happen to the component: the user acts on a control, or a
    promise settles.  [n] picks a promise in flight; the remaining
    arguments are what the environment supplies (clock readings, the
    adapter's outcome, the behaviour of pdf.js). *)
Inductive Event :=
| EvSetPrompt (v : jsstring)
| EvSetCodeType (v : CodeType)
| EvSetActiveTab (v : Tab)
| EvSetChatInput (v : jsstring)
| EvFileChange (file : option File)
| EvDragEnter
| EvDragLeave (inside : bool)
| EvDragOver
| EvDrop (file : option File)
| EvRemoveFile
| EvGenerate
| EvChatSubmit (now1 now2 : Z)
| EvRestore (n : nat) (now1 now2 : Z)
| EvGenerateSettled (n : nat) (outcome : result GenerateResult)
    (now1 now2 now3 now4 : Z)
| EvChatSettled (n : nat) (outcome : result ChatResult) (now1 now2 : Z)
| EvPdfSettled (n : nat)
    (getDocument : list N -> result PdfHelper.PdfDocument).

Definition remove_nth {A : Type} (n : nat) (xs : list A) : list A :=
  firstn n xs ++ skipn (S n) xs.

Definition only_ui (f : State -> State) (s : Session) : Session :=
  {| ui := f (ui s); inflight := inflight s |}.

Definition calling (f : State -> State * option Pending) (s : Session)
  : Session :=
  {| ui := fst (f (ui s));
     inflight := match snd (f (ui s)) with
                 | Some call => inflight s ++ [call]
                 | None => inflight s
                 end |}.

Definition settling (n : nat) (f : State -> State) (s : Session) : Session :=
  {| ui := f (ui s); inflight := remove_nth n (inflight s) |}.

Definition step (s : Session) (ev : Event) : Session :=
  match ev with
  | EvSetPrompt v => only_ui (setPrompt v) s
  | EvSetCodeType v => only_ui (setCodeType v) s
  | EvSetActiveTab v => only_ui (setActiveTab v) s
  | EvSetChatInput v => only_ui (setChatInput v) s
  | EvFileChange file => calling (handleFileChange file) s
  | EvDragEnter => only_ui handleDragEnter s
  | EvDragLeave inside => only_ui (handleDragLeave inside) s
  | EvDragOver => only_ui handleDragOver s
  | EvDrop file => calling (handleDrop file) s
  | EvRemoveFile => only_ui removeFile s
  | EvGenerate => calling handleGenerate_call s
  | EvChatSubmit now1 now2 => calling (handleChatSubmit_call now1 now2) s
  | EvRestore n now1 now2 =>
      match nth_error (history (ui s)) n with
      | Some item => only_ui (restoreFromHistory item now1 now2) s
      | None => s
      end
  | EvGenerateSettled n outcome now1 now2 now3 now4 =>
      match nth_error (inflight s) n with
      | Some (PendingGenerate prompt codeType _) =>
          settling n
            (handleGenerate_settled prompt codeType outcome
               now1 now2 now3 now4) s
      | _ => s
      end
  | EvChatSettled n outcome now1 now2 =>
      match nth_error (inflight s) n with
      | Some (PendingChat _ _ _ _) =>
          settling n (handleChatSubmit_settled outcome now1 now2) s
      | _ => s
      end
  | EvPdfSettled n getDocument =>
      match nth_error (inflight s) n with
      | Some (PendingPdf file) =>
          settling n
            (processFile_settled
               (PdfHelper.extractTextFromPdf getDocument file)) s
      | _ => s
      end
  end.

Definition run (s : Session) (evs : list Event) : Session :=
  fold_left step evs s.

Inductive reachable : Session -> Prop :=
| reach_init : reachable initialSession
| reach_step s ev : reachable s -> reachable (step s ev).

(** The handlers run from their event to the end, when nothing else
    happens while they wait. *)
Definition processFile
    (getDocument : list N -> result PdfHelper.PdfDocument) (file : File)
    (st : State) : State :=
  match processFile_call file st with
  | (st, Some (PendingPdf f)) =>
      processFile_settled (PdfHelper.extractTextFromPdf getDocument f) st
  | (st, _) => st
  end.

Definition handleGenerate (outcome : result GenerateResult)
    (now1 now2 now3 now4 : Z) (st : State) : State :=
  match handleGenerate_call st with
  | (st, Some (PendingGenerate prompt codeType _)) =>
      handleGenerate_settled prompt codeType outcome now1 now2 now3 now4 st
  | (st, _) => st
  end.

Definition handleChatSubmit (now1 now2 : Z) (outcome : result ChatResult)
    (now3 now4 : Z) (st : State) : State :=
  match handleChatSubmit_call now1 now2 st with
  | (st, Some (PendingChat _ _ _ _)) =>
      handleChatSubmit_settled outcome now3 now4 st
  | (st, _) => st
  end.

(** What the markup derives from the state: the title handed to
    [CodeDisplay], and whether the error box is rendered
    ([{error && ...}]). *)
Definition displayTitle (st : State) : jsstring :=
  replace_first (lit " ") [] (CodeType_value (codeType st))
    ++ lit "_Gen.mq5".

Definition errorShown (st : State) : bool := truthy_opt (error st).

(** The chat requests among the promises in flight. *)
Definition is_chat_call (call : Pending) : bool :=
  match call with
  | PendingChat _ _ _ _ => true
  | _ => false
  end.

Definition chat_calls (s : Session) : nat :=
  length (filter is_chat_call (inflight s)).

(** Events that deliver the result of a generation. *)
Definition is_generation_result (ev : Event) : bool :=
  match ev with
  | EvGenerateSettled _ (Ok _) _ _ _ _ => true
  | _ => false
  end.

(** The input a request in flight was sent for: the prompt of a
    generation, the question of a chat request. *)
Definition sent_for (call : Pending) : option jsstring :=
  match call with
  | PendingGenerate prompt _ _ => Some prompt
  | PendingChat _ _ userMessage _ => Some userMessage
  | PendingPdf _ => None
  end.

(** The request an adapter call puts on the wire. *)
Definition outbound (call : Pending)
  : option GeminiService.GenerateContentParameters :=
  match call with
  | PendingGenerate prompt codeType pdfContent =>
      Some (GeminiService.generate_request prompt codeType (Some pdfContent))
  | PendingChat contextCode chatHistory userMessage pdfContent =>
      Some (GeminiService.chat_request contextCode chatHistory userMessage
              (Some pdfContent))
  | PendingPdf _ => None
  end.

End App.

(* ================================================================== *)
(** ** The specification's wording, where it is compared with the code *)

Module Claims.

Import GeminiService.

Definition remove_suffix (p s : jsstring) : jsstring :=
  if has_suffix p s then firstn (length s - length p) s else s.

(** "Stripping markdown code fences", to the letter: of the trimmed reply
    the opening fence and the closing fence go, everything between them
    stays. *)
Definition strip_fences_only (text : jsstring) : jsstring :=
  let t := trim text in
  if startsWith fence_json t then
    remove_suffix fence (skipn (length fence_json) t)
  else if startsWith fence t then
    remove_suffix fence (skipn (length fence) t)
  else t.

(** The page separator and the text of a page, written out: a line feed,
    "--- Page <i> ---", a line feed; the strings of the page's items joined
    by single spaces. *)
Definition page_separator (i : Z) : jsstring :=
  nl ++ lit "--- Page " ++ toString i ++ lit " ---" ++ nl.

Definition items_text (items : list PdfHelper.TextItem) : jsstring :=
  join (lit " ") (map PdfHelper.str items).

(** The texts of pages [first], [first + 1], ... in page order, each
    preceded by its separator. *)
Fixpoint pages_in_order (first : Z) (texts : list jsstring) : jsstring :=
  match texts with
  | [] => []
  | t :: rest => page_separator first ++ t ++ pages_in_order (first + 1) rest
  end.

(** Pages [first], [first + 1], ... of [doc] can be read and give
    [texts]. *)
Fixpoint pages_give (doc : PdfHelper.PdfDocument) (first : Z)
    (texts : list jsstring) : Prop :=
  match texts with
  | [] => True
  | t :: rest =>
      (exists page items,
          PdfHelper.getPage doc first = Ok page /\
          PdfHelper.getTextContent page = Ok items /\
          t = items_text items) /\
      pages_give doc (first + 1) rest
  end.

(** "Appended only": the new list is the old one, possibly with more
    turns at its end. *)
Definition extends_at_end (before after : list ChatMessage) : Prop :=
  exists more, after = before ++ more.

End Claims.

(* ================================================================== *)
(** ** Sample inputs *)

Module Samples.

Import GeminiService PdfHelper App.

Definition fenced_reply : jsstring :=
  lit "```json" ++ nl ++ lit "{}" ++ nl ++ lit "```".

Definition sample_message (n : nat) : ChatMessage :=
  {| id := toString (Z.of_nat n);
     role := if Nat.even n then model else user;
     content := lit "m" ++ toString (Z.of_nat n);
     hasCodeUpdate := None;
     timestamp := Z.of_nat n |}.

(** A two-page document and a pdf.js that opens it. *)
Definition two_page_doc : PdfDocument :=
  {| numPages := 2;
     getPage := fun i =>
       if (i =? 1)%Z then
         Ok (mkPage (Ok [mkItem (lit "Hello"); mkItem (lit "world")]))
       else if (i =? 2)%Z then Ok (mkPage (Ok [mkItem (lit "OnTick")]))
       else Throw (Error (lit "Invalid page request")) |}.

Definition two_page_pdfjs (data : list N) : result PdfDocument :=
  Ok two_page_doc.

Definition pdf_file : File :=
  {| file_name := lit "mql5.pdf";
     file_type := lit "application/pdf";
     arrayBuffer := Ok [37%N] |}.

(** A pdf.js that rejects every document. *)
Definition failing_pdfjs (data : list N) : result PdfDocument :=
  Throw (Error (lit "Invalid PDF structure")).

(** A first generation, then a follow-up question typed and sent. *)
Definition first_generation : list Event :=
  [ EvSetPrompt (lit "EMA cross");
    EvGenerate;
    EvGenerateSettled 0
      (Ok (mkGenerateResult (lit "void OnTick() {}") (lit "Trades EMA.")))
      1000 1000 1000 1000 ].

Definition question_sent : list Event :=
  first_generation
  ++ [ EvSetChatInput (lit "add a stop loss"); EvChatSubmit 2000 2000 ].

(** The follow-up request fails within the millisecond it was sent in. *)
Definition question_failed_at_once : list Event :=
  question_sent
  ++ [ EvChatSettled 0 (Throw (Error (lit "Failed to fetch"))) 2000 2000 ].

(** The reply arrives at 2500, the next question is sent one millisecond
    later. *)
Definition question_after_reply : list Event :=
  question_sent
  ++ [ EvChatSettled 0 (Ok (mkChatResult (lit "Done.") None)) 2500 2500;
       EvSetChatInput (lit "and a take profit");
       EvChatSubmit 2501 2501 ].

(** A PDF is chosen while pdf.js cannot open it. *)
Definition pdf_chosen : list Event := [ EvFileChange (Some pdf_file) ].

Definition png_file : File :=
  {| file_name := lit "chart.png";
     file_type := lit "image/png";
     arrayBuffer := Ok [137%N] |}.

(** A document that reports no pages. *)
Definition empty_doc : PdfDocument :=
  {| numPages := 0;
     getPage := fun _ => Throw (Error (lit "Invalid page request")) |}.

Definition empty_pdfjs (data : list N) : result PdfDocument := Ok empty_doc.

(** A model that answers without text, and a parser that is never
    reached. *)
Definition silent_model (req : GenerateContentParameters)
  : result GenerateContentResponse :=
  Ok (mkResponse None).

Definition no_parse (s : jsstring) : result unit :=
  Throw (Error (lit "Unexpected end of JSON input")).

End Samples.

(* ================================================================== *)
(** * Properties *)

Import GeminiService Samples.

(** ** Strings and slices *)

Section StringFacts.

Lemma eqb_str_eq (a b : jsstring) : eqb_str a b = true <-> a = b.
Proof.
  revert b; induction a as [|x a IH]; intros [|y b]; simpl;
    try (split; [discriminate | congruence]); try tauto.
  rewrite andb_true_iff, N.eqb_eq, IH. split.
  - intros [-> ->]; reflexivity.
  - intros H; inversion H; auto.
Qed.

Lemma startsWith_app (p s : jsstring) :
  startsWith p s = true <-> exists r, s = p ++ r.
Proof.
  revert s; induction p as [|x p IH]; intros s; simpl.
  - split; [intros _; exists s; reflexivity | reflexivity].
  - destruct s as [|y s].
    + split; [discriminate | intros [r H]; discriminate].
    + rewrite andb_true_iff, N.eqb_eq, IH. split.
      * intros [-> [r ->]]; exists r; reflexivity.
      * intros [r H]; inversion H; subst; eauto.
Qed.

Lemma skipn_prefix (p r : jsstring) : skipn (length p) (p ++ r) = r.
Proof. induction p; simpl; auto. Qed.

Lemma trimStart_all_space (w s : jsstring) :
  all_space w = true -> trimStart (w ++ s) = trimStart s.
Proof.
  induction w as [|c w IH]; simpl; auto.
  destruct (is_space c); simpl; [auto | discriminate].
Qed.

Lemma trimStart_blank (w : jsstring) : all_space w = true -> trimStart w = [].
Proof.
  intros H. rewrite <- (app_nil_r w). rewrite trimStart_all_space; auto.
Qed.

Lemma trimStart_snoc (l : jsstring) (c : N) :
  trimStart (l ++ [c]) =
  if all_space (l ++ [c]) then [] else trimStart l ++ [c].
Proof.
  induction l as [|x l IH]; simpl.
  - destruct (is_space c); reflexivity.
  - destruct (is_space x); simpl; [exact IH | reflexivity].
Qed.

Lemma all_space_rev (s : jsstring) : all_space (rev s) = all_space s.
Proof.
  unfold all_space. induction s as [|c s IH]; simpl; auto.
  rewrite forallb_app, IH; simpl. rewrite andb_true_r, andb_comm; reflexivity.
Qed.

Lemma trimEnd_cons (c : N) (r : jsstring) :
  trimEnd (c :: r) = if all_space (c :: r) then [] else c :: trimEnd r.
Proof.
  unfold trimEnd. simpl rev. rewrite trimStart_snoc.
  rewrite <- (all_space_rev (c :: r)). simpl rev.
  destruct (all_space (rev r ++ [c])); [reflexivity|].
  rewrite rev_app_distr; reflexivity.
Qed.

Lemma trimEnd_blank (w : jsstring) : all_space w = true -> trimEnd w = [].
Proof.
  intros H. unfold trimEnd. rewrite trimStart_blank; auto.
  rewrite all_space_rev; auto.
Qed.

Lemma trim_blank (w : jsstring) : all_space w = true -> trim w = [].
Proof.
  intros H. unfold trim. rewrite trimStart_blank; auto.
Qed.

(** [slice(-k)] keeps the last [k] elements. *)
Lemma slice_last {A : Type} (k : nat) (xs : list A) :
  (0 < k)%nat ->
  slice (- Z.of_nat k) None xs = skipn (length xs - k) xs.
Proof.
  intros Hk. unfold slice, rel_index.
  replace (- Z.of_nat k <? 0)%Z with true by (symmetry; apply Z.ltb_lt; lia).
  replace (Z.to_nat (Z.max (Z.of_nat (length xs) + - Z.of_nat k) 0))
    with (length xs - k)%nat by lia.
  apply firstn_all2. rewrite length_skipn. lia.
Qed.

(** [slice(0, n)] keeps the first [n] elements. *)
Lemma slice_first {A : Type} (n : Z) (xs : list A) :
  (0 <= n)%Z ->
  slice 0 (Some n) xs = firstn (Z.to_nat n) xs.
Proof.
  intros Hn. unfold slice, rel_index. rewrite Z.ltb_irrefl.
  replace (n <? 0)%Z with false by (symmetry; apply Z.ltb_ge; lia).
  replace (Z.min 0 (Z.of_nat (length xs))) with 0%Z by lia.
  simpl skipn. rewrite Z.sub_0_r.
  destruct (Z.le_gt_cases n (Z.of_nat (length xs))) as [H|H].
  - replace (Z.max (Z.min n (Z.of_nat (length xs))) 0) with n by lia.
    reflexivity.
  - rewrite !firstn_all2 by lia. reflexivity.
Qed.

End StringFacts.

(** ** The chat request carries the last ten messages *)

Section ChatContext.

Lemma skipn_older {A : Type} (older recent : list A) :
  skipn (length older) (older ++ recent) = recent.
Proof. induction older; simpl; auto. Qed.

Lemma last_ten (older recent : list ChatMessage) :
  (length recent <= 10)%nat ->
  older = [] \/ length recent = 10%nat ->
  slice (-10) None (older ++ recent) = recent.
Proof.
  intros Hle Hcase.
  change (-10)%Z with (- Z.of_nat 10)%Z. rewrite slice_last by lia.
  destruct Hcase as [-> | H10].
  - simpl app. replace (length recent - 10)%nat with 0%nat by lia.
    reflexivity.
  - rewrite length_app, H10.
    replace (length older + 10 - 10)%nat with (length older) by lia.
    apply skipn_older.
Qed.

Lemma chat_contents_frame
    (currentCode userMessage : jsstring) (doc : option jsstring) :
  exists before after : jsstring,
    forall chatHistory : list ChatMessage,
      contents (chat_request currentCode chatHistory userMessage doc)
      = before ++ lit "    CONVERSATION HISTORY:" ++ nl ++ lit "    "
          ++ conversationContext chatHistory
          ++ nl ++ nl ++ lit "    USER REQUEST:" ++ after.
Proof.
  exists (unlines [ []; lit "    CURRENT MQL5 CODE CONTEXT:";
                    lit "    ```mql5"; lit "    " ++ currentCode;
                    lit "    ```"; []; [] ]).
  exists (nl ++ lit "    " ++ userMessage ++ nl ++ lit "  "
          ++ match doc with
             | Some d => if truthy d then chat_doc_section d else []
             | None => []
             end).
  intros chatHistory. unfold chat_request. cbn [contents].
  unfold chat_fullPrompt.
  assert (Hhead : chat_head currentCode chatHistory userMessage
                  = unlines [ []; lit "    CURRENT MQL5 CODE CONTEXT:";
                              lit "    ```mql5"; lit "    " ++ currentCode;
                              lit "    ```"; []; [] ]
                    ++ lit "    CONVERSATION HISTORY:" ++ nl ++ lit "    "
                    ++ conversationContext chatHistory
                    ++ nl ++ nl ++ lit "    USER REQUEST:"
                    ++ nl ++ lit "    " ++ userMessage ++ nl ++ lit "  ").
  { unfold chat_head, unlines. rewrite <- !app_assoc. reflexivity. }
  rewrite Hhead.
  destruct doc as [d|]; [destruct (truthy d)|];
    rewrite <- ?app_assoc, ?app_nil_r; reflexivity.
Qed.

(** C1: the conversation context of a chat request is made of the last 10
    messages of the history and of nothing else (of all messages when
    there are at most 10): one line per message in array order, "User: "
    or "Assistant: " followed by the message text, joined by line feeds.
    That string stands in the outbound request's contents under the
    "CONVERSATION HISTORY:" heading, inside a frame that does not depend on
    the history, and whatever precedes the last 10 messages leaves the
    whole request unchanged. *)
Theorem chat_context_is_last_ten
    (currentCode userMessage : jsstring) (doc : option jsstring) :
  exists before after : jsstring,
    forall older recent : list ChatMessage,
      (length recent <= 10)%nat ->
      older = [] \/ length recent = 10%nat ->
      let lines :=
        map (fun msg =>
               (match role msg with
                | user => lit "User"
                | model => lit "Assistant"
                end) ++ lit ": " ++ content msg) recent in
      conversationContext (older ++ recent) = join nl lines
      /\ contents
           (chat_request currentCode (older ++ recent) userMessage doc)
         = before ++ lit "    CONVERSATION HISTORY:" ++ nl ++ lit "    "
             ++ join nl lines
             ++ nl ++ nl ++ lit "    USER REQUEST:" ++ after
      /\ chat_request currentCode (older ++ recent) userMessage doc
         = chat_request currentCode recent userMessage doc.
Proof.
  destruct (chat_contents_frame currentCode userMessage doc)
    as (before & after & Hframe).
  exists before, after. intros older recent Hle Hcase lines.
  assert (Hall : conversationContext (older ++ recent) = join nl lines).
  { unfold conversationContext. rewrite last_ten; auto. }
  assert (Hrecent : conversationContext recent = join nl lines).
  { unfold conversationContext.
    rewrite <- (app_nil_l recent) at 1. rewrite last_ten; auto. }
  split; [exact Hall|]. split.
  - rewrite Hframe, Hall. reflexivity.
  - unfold chat_request, chat_fullPrompt, chat_head.
    rewrite Hall, Hrecent. reflexivity.
Qed.

Lemma chat_context_is_last_ten_witness :
  conversationContext (map sample_message (seq 0 13))
  = join nl
      [ lit "User: m3"; lit "Assistant: m4"; lit "User: m5";
        lit "Assistant: m6"; lit "User: m7"; lit "Assistant: m8";
        lit "User: m9"; lit "Assistant: m10"; lit "User: m11";
        lit "Assistant: m12" ].
Proof.
  destruct (chat_context_is_last_ten [] [] None) as (before & after & H).
  destruct (H (map sample_message (seq 0 3))
              (map sample_message (seq 3 10))) as [Hcontext _].
  - simpl; lia.
  - right; reflexivity.
  - exact Hcontext.
Defined.

End ChatContext.

(** ** Documentation context in the prompts *)

Section Documentation.





End Documentation.

(** ** cleanJsonOutput *)

Section CleanJson.

Lemma trimStart_split (s : jsstring) :
  exists w, all_space w = true /\ s = w ++ trimStart s.
Proof.
  induction s as [|c s (w & Hw & IH)]; simpl.
  - exists []; auto.
  - destruct (is_space c) eqn:Hc.
    + exists (c :: w); simpl. unfold all_space in *; simpl.
      rewrite Hc, Hw. split; [reflexivity | congruence].
    + exists []; auto.
Qed.

Lemma has_suffix_app (p s : jsstring) :
  has_suffix p s = true <-> exists b, s = b ++ p.
Proof.
  unfold has_suffix. rewrite startsWith_app. split.
  - intros [r H]. exists (rev r).
    rewrite <- (rev_involutive s), H, rev_app_distr, rev_involutive.
    reflexivity.
  - intros [b ->]. exists (rev b). apply rev_app_distr.
Qed.

Lemma replace_trailing_unfold (p s : jsstring) :
  replace_trailing p s =
  if matches_ws_then p s then []
  else match s with
       | [] => []
       | c :: r => c :: replace_trailing p r
       end.
Proof. destruct s; reflexivity. Qed.

(** The closing pattern matches at the end: the fence goes, with the
    white space before it. *)
Lemma replace_trailing_match (p body : jsstring) :
  trimStart p = p ->
  replace_trailing p (body ++ p) = trimEnd body.
Proof.
  intros Hp. induction body as [|c b IH].
  - simpl app. rewrite replace_trailing_unfold.
    unfold matches_ws_then. rewrite Hp.
    replace (eqb_str p p) with true
      by (symmetry; apply eqb_str_eq; reflexivity).
    reflexivity.
  - assert (Hstep : replace_trailing p ((c :: b) ++ p) =
                    if matches_ws_then p ((c :: b) ++ p) then []
                    else c :: replace_trailing p (b ++ p)) by reflexivity.
    rewrite Hstep, IH, trimEnd_cons. clear Hstep IH.
    unfold matches_ws_then.
    destruct (all_space (c :: b)) eqn:Hsp.
    + rewrite trimStart_all_space, Hp by exact Hsp.
      replace (eqb_str p p) with true
        by (symmetry; apply eqb_str_eq; reflexivity).
      reflexivity.
    + destruct (eqb_str (trimStart ((c :: b) ++ p)) p) eqn:Hm;
        [|reflexivity].
      apply eqb_str_eq in Hm.
      destruct (trimStart_split ((c :: b) ++ p)) as (w & Hw & Hsplit).
      rewrite Hm in Hsplit. apply app_inv_tail in Hsplit.
      rewrite Hsplit in Hsp. congruence.
Qed.

(** The closing pattern matches nowhere: nothing changes. *)
Lemma replace_trailing_no_match (p s : jsstring) :
  has_suffix p s = false -> replace_trailing p s = s.
Proof.
  induction s as [|c r IH]; intros Hno.
  - simpl. destruct (matches_ws_then p []); reflexivity.
  - assert (Hstep : replace_trailing p (c :: r) =
                    if matches_ws_then p (c :: r) then []
                    else c :: replace_trailing p r) by reflexivity.
    rewrite Hstep; clear Hstep.
    destruct (matches_ws_then p (c :: r)) eqn:Hm.
    + exfalso. apply eqb_str_eq in Hm.
      destruct (trimStart_split (c :: r)) as (w & _ & Hsplit).
      rewrite Hm in Hsplit.
      assert (has_suffix p (c :: r) = true)
        by (apply has_suffix_app; eauto).
      congruence.
    + rewrite IH; [reflexivity|].
      destruct (has_suffix p r) eqn:Hr; [|reflexivity].
      apply has_suffix_app in Hr. destruct Hr as [b ->].
      assert (has_suffix p (c :: b ++ p) = true)
        by (apply has_suffix_app; exists (c :: b); reflexivity).
      congruence.
Qed.

Lemma fence_json_starts_with_fence (t : jsstring) :
  startsWith fence_json t = true -> startsWith fence t = true.
Proof.
  rewrite !startsWith_app. intros [r ->].
  exists (lit "json" ++ r). reflexivity.
Qed.

(** C4, as stated, fails: on a fenced reply the code also drops the white
    space after the opening fence and before the closing one, which
    removing the two fences alone would leave in place. *)
Lemma cleanJsonOutput_not_fences_only :
  cleanJsonOutput fenced_reply = lit "{}"
  /\ Claims.strip_fences_only fenced_reply = nl ++ lit "{}" ++ nl
  /\ cleanJsonOutput fenced_reply <> Claims.strip_fences_only fenced_reply.
Proof.
  split; [|split]; [reflexivity | reflexivity | discriminate].
Qed.

(** C4, amended: a trimmed reply that does not start with a fence is
    returned as it is.  One that starts with a fence loses the fence and
    the white space after it; if what is left ends with a closing fence,
    that fence and the white space before it go as well, otherwise
    nothing more is removed. *)
Theorem cleanJsonOutput_strips_fences_and_space (text : jsstring) :
  (startsWith fence (trim text) = false -> cleanJsonOutput text = trim text)
  /\ (forall opening rest,
        trim text = opening ++ rest ->
        opening = fence_json
        \/ (opening = fence /\ startsWith fence_json (trim text) = false) ->
        (forall body,
            trimStart rest = body ++ fence ->
            cleanJsonOutput text = trimEnd body)
        /\ (has_suffix fence (trimStart rest) = false ->
            cleanJsonOutput text = trimStart rest)).
Proof.
  unfold cleanJsonOutput. split.
  - intros Hno.
    destruct (startsWith fence_json (trim text)) eqn:Hj.
    + apply fence_json_starts_with_fence in Hj. congruence.
    + rewrite Hno. reflexivity.
  - intros opening rest Ht Hopen.
    assert (Hclean :
      (if startsWith fence_json (trim text)
       then replace_trailing fence (replace_leading fence_json (trim text))
       else if startsWith fence (trim text)
            then replace_trailing fence (replace_leading fence (trim text))
            else trim text)
      = replace_trailing fence (trimStart rest)).
    { destruct Hopen as [-> | [-> Hj]].
      - assert (Hs : startsWith fence_json (trim text) = true)
          by (apply startsWith_app; eauto).
        rewrite Hs. unfold replace_leading. rewrite Hs, Ht, skipn_prefix.
        reflexivity.
      - assert (Hs : startsWith fence (trim text) = true)
          by (apply startsWith_app; eauto).
        rewrite Hj, Hs. unfold replace_leading. rewrite Hs, Ht, skipn_prefix.
        reflexivity. }
    rewrite Hclean. split.
    + intros body Hbody. rewrite Hbody.
      apply replace_trailing_match. reflexivity.
    + apply replace_trailing_no_match.
Qed.

Lemma cleanJsonOutput_strips_fences_and_space_witness :
  cleanJsonOutput fenced_reply = lit "{}".
Proof.
  destruct (cleanJsonOutput_strips_fences_and_space fenced_reply)
    as [_ H].
  destruct (H fence_json (nl ++ lit "{}" ++ nl ++ lit "```")) as [Hbody _].
  - reflexivity.
  - left; reflexivity.
  - apply (Hbody (lit "{}" ++ nl)). reflexivity.
Defined.

End CleanJson.

(** ** extractTextFromPdf *)

Section PdfExtraction.

Import PdfHelper.

Variable getDocument : list N -> result PdfDocument.

Lemma page_loop_complete (doc : PdfDocument) (texts : list jsstring) :
  forall (i : Z) (fullText : jsstring),
    pages_read doc i texts ->
    page_loop doc (length texts) i fullText
    = Ok (fullText ++ page_blocks i texts).
Proof.
  induction texts as [|t rest IH]; intros i fullText Hread; simpl.
  - rewrite app_nil_r. reflexivity.
  - destruct Hread as [(page & items & Hpage & Hitems & ->) Hrest].
    rewrite Hpage; simpl. rewrite Hitems; simpl.
    rewrite IH by exact Hrest. rewrite <- app_assoc. reflexivity.
Qed.

Lemma page_loop_sound (doc : PdfDocument) (remaining : nat) :
  forall (i : Z) (fullText out : jsstring),
    page_loop doc remaining i fullText = Ok out ->
    exists texts,
      length texts = remaining /\ pages_read doc i texts
      /\ out = fullText ++ page_blocks i texts.
Proof.
  induction remaining as [|k IH]; intros i fullText out Hloop; simpl in Hloop.
  - inversion Hloop; subst. exists []; simpl.
    rewrite app_nil_r. auto.
  - destruct (getPage doc i) as [page|e] eqn:Hpage; simpl in Hloop;
      [|discriminate].
    destruct (getTextContent page) as [items|e] eqn:Hitems; simpl in Hloop;
      [|discriminate].
    apply IH in Hloop. destruct Hloop as (texts & Hlen & Hread & ->).
    exists (pageText items :: texts); simpl. repeat split.
    + congruence.
    + exists page, items; auto.
    + exact Hread.
    + rewrite <- app_assoc. reflexivity.
Qed.

Lemma page_blocks_in_order (texts : list jsstring) :
  forall first, page_blocks first texts = Claims.pages_in_order first texts.
Proof.
  induction texts as [|t rest IH]; intros first; simpl; [reflexivity|].
  rewrite IH. unfold page_block, Claims.page_separator, unlines.
  rewrite <- !app_assoc. reflexivity.
Qed.

Lemma pages_read_give (doc : PdfDocument) (texts : list jsstring) :
  forall first, pages_read doc first texts <-> Claims.pages_give doc first texts.
Proof.
  induction texts as [|t rest IH]; intros first; simpl; [tauto|].
  rewrite IH. unfold pageText, Claims.items_text. tauto.
Qed.

(** C5: the adapter either throws its one fixed error, or the file was
    read, the document opened, every page from 1 to the reported page count
    gave its items, and the result is, in page order, for each page a line
    feed, "--- Page <number> ---", a line feed and the page's item strings
    joined by single spaces.  Whenever all of that can be read the result
    is exactly this concatenation, so no shorter text is ever returned. *)
Theorem extractTextFromPdf_all_pages_or_error (file : File) :
  (extractTextFromPdf getDocument file = Throw PDF_ERROR
   \/ exists data doc texts,
        arrayBuffer file = Ok data /\ getDocument data = Ok doc
        /\ length texts = Z.to_nat (numPages doc)
        /\ Claims.pages_give doc 1 texts
        /\ extractTextFromPdf getDocument file
           = Ok (Claims.pages_in_order 1 texts))
  /\ (forall data doc texts,
        arrayBuffer file = Ok data -> getDocument data = Ok doc ->
        length texts = Z.to_nat (numPages doc) ->
        Claims.pages_give doc 1 texts ->
        extractTextFromPdf getDocument file
        = Ok (Claims.pages_in_order 1 texts)).
Proof.
  unfold extractTextFromPdf. split.
  - destruct (arrayBuffer file) as [data|e] eqn:Hbuf; simpl; [|auto].
    destruct (getDocument data) as [doc|e] eqn:Hdoc; simpl; [|auto].
    destruct (page_loop doc (Z.to_nat (numPages doc)) 1 []) as [out|e]
      eqn:Hloop; simpl; [|auto].
    right. apply page_loop_sound in Hloop.
    destruct Hloop as (texts & Hlen & Hread & ->).
    exists data, doc, texts. rewrite <- page_blocks_in_order.
    apply pages_read_give in Hread. auto.
  - intros data doc texts Hbuf Hdoc Hlen Hread.
    apply pages_read_give in Hread.
    rewrite Hbuf; simpl. rewrite Hdoc; simpl.
    rewrite <- Hlen, page_loop_complete by exact Hread.
    rewrite page_blocks_in_order. reflexivity.
Qed.

End PdfExtraction.

Section PdfExtractionExample.

Import PdfHelper.

Lemma extractTextFromPdf_all_pages_or_error_witness :
  extractTextFromPdf Samples.two_page_pdfjs Samples.pdf_file
  = Ok (nl ++ lit "--- Page 1 ---" ++ nl ++ lit "Hello world"
        ++ nl ++ lit "--- Page 2 ---" ++ nl ++ lit "OnTick").
Proof.
  apply (proj2 (extractTextFromPdf_all_pages_or_error
                  Samples.two_page_pdfjs Samples.pdf_file)
           [37%N] Samples.two_page_doc
           [lit "Hello world"; lit "OnTick"]).
  - reflexivity.
  - reflexivity.
  - reflexivity.
  - simpl. repeat split.
    + exists (mkPage (Ok [mkItem (lit "Hello"); mkItem (lit "world")])),
        [mkItem (lit "Hello"); mkItem (lit "world")].
      repeat split; reflexivity.
    + exists (mkPage (Ok [mkItem (lit "OnTick")])), [mkItem (lit "OnTick")].
      repeat split; reflexivity.
Defined.

End PdfExtractionExample.

(** ** The adapters *)

Section Adapters.

Variable generateContent :
  GenerateContentParameters -> result GenerateContentResponse.
Variable JsValue : Type.
Variable JSON_parse : jsstring -> result JsValue.

Lemma request_and_parse_ok (req : GenerateContentParameters) (v : JsValue) :
  request_and_parse generateContent JSON_parse req = Ok v ->
  exists response t,
    generateContent req = Ok response /\ text response = Some t
    /\ t <> [] /\ JSON_parse (cleanJsonOutput t) = Ok v.
Proof.
  unfold request_and_parse.
  destruct (generateContent req) as [response|e]; [|discriminate].
  destruct (text response) as [t|] eqn:Ht; [|discriminate].
  destruct t as [|c t]; simpl; [discriminate|].
  destruct (JSON_parse (cleanJsonOutput (c :: t))) as [w|e] eqn:Hparse;
    [|discriminate].
  intros H; inversion H; subst.
  exists response, (c :: t). repeat split; auto. discriminate.
Qed.

Lemma request_and_parse_no_text (req : GenerateContentParameters)
    (response : GenerateContentResponse) :
  generateContent req = Ok response ->
  truthy_opt (text response) = false ->
  request_and_parse generateContent JSON_parse req = Throw NO_RESPONSE.
Proof.
  unfold request_and_parse. intros -> Hno.
  destruct (text response) as [[|c t]|]; simpl in *;
    [reflexivity | discriminate | reflexivity].
Qed.

(** C6: what [generateMql5] and [chatWithCode] return is the parse of the
    cleaned text of the reply to the request they built; in every other
    case they throw, and when the reply has no text (missing or empty)
    they throw "No response generated". *)
Theorem adapters_return_parsed_reply_or_throw
    (prompt : jsstring) (type : CodeType)
    (currentCode userMessage : jsstring) (chatHistory : list ChatMessage)
    (doc : option jsstring) :
  let generated := generateMql5 generateContent JSON_parse prompt type doc in
  let answered :=
    chatWithCode generateContent JSON_parse currentCode chatHistory
      userMessage doc in
  ((exists e, generated = Throw e)
   \/ exists response t v,
        generateContent (generate_request prompt type doc) = Ok response
        /\ text response = Some t /\ t <> []
        /\ JSON_parse (cleanJsonOutput t) = Ok v /\ generated = Ok v)
  /\ ((exists e, answered = Throw e)
      \/ exists response t v,
           generateContent
             (chat_request currentCode chatHistory userMessage doc)
           = Ok response
           /\ text response = Some t /\ t <> []
           /\ JSON_parse (cleanJsonOutput t) = Ok v /\ answered = Ok v)
  /\ (forall response,
        generateContent (generate_request prompt type doc) = Ok response ->
        truthy_opt (text response) = false ->
        generated = Throw NO_RESPONSE)
  /\ (forall response,
        generateContent
          (chat_request currentCode chatHistory userMessage doc)
        = Ok response ->
        truthy_opt (text response) = false ->
        answered = Throw NO_RESPONSE).
Proof.
  intros generated answered. subst generated answered.
  unfold generateMql5, chatWithCode.
  repeat split.
  - destruct (request_and_parse generateContent JSON_parse
                (generate_request prompt type doc)) as [v|e] eqn:Hr;
      [right | left; eauto].
    destruct (request_and_parse_ok _ _ Hr) as (response & t & H1 & H2 & H3 & H4).
    exists response, t, v. auto.
  - destruct (request_and_parse generateContent JSON_parse
                (chat_request currentCode chatHistory userMessage doc))
      as [v|e] eqn:Hr; [right | left; eauto].
    destruct (request_and_parse_ok _ _ Hr) as (response & t & H1 & H2 & H3 & H4).
    exists response, t, v. auto.
  - apply request_and_parse_no_text.
  - apply request_and_parse_no_text.
Qed.

End Adapters.

Lemma adapters_return_parsed_reply_or_throw_witness :
  generateMql5 Samples.silent_model Samples.no_parse
    (lit "EMA cross") EXPERT_ADVISOR None
  = Throw NO_RESPONSE.
Proof.
  apply (proj1 (proj2 (proj2 (adapters_return_parsed_reply_or_throw
           Samples.silent_model unit Samples.no_parse
           (lit "EMA cross") EXPERT_ADVISOR [] [] [] None)))
           (mkResponse None)).
  - reflexivity.
  - reflexivity.
Defined.

(** ** The view state *)

Import App.

(** Unfolds one event down to the setters. *)
Ltac open_step :=
  unfold step, only_ui, calling, settling, handleFileChange, handleDrop,
    handleDragEnter, handleDragLeave, handleDragOver, removeFile,
    processFile_call, processFile_settled, handleGenerate_call,
    handleGenerate_settled, handleChatSubmit_call, handleChatSubmit_settled,
    restoreFromHistory, updHistory, updChatMessages.

Ltac split_cases :=
  repeat
    (simpl;
     match goal with
     | |- context [if ?c then _ else _] =>
         lazymatch c with
         | context [if _ then _ else _] => fail
         | _ => destruct c eqn:?
         end
     | |- context [match nth_error ?l ?n with _ => _ end] =>
         destruct (nth_error l n) eqn:?
     | |- context [match updatedCode ?r with _ => _ end] =>
         destruct (updatedCode r) eqn:?
     | |- context [match PdfHelper.extractTextFromPdf ?g ?f with _ => _ end] =>
         destruct (PdfHelper.extractTextFromPdf g f) eqn:?
     | |- context [match ?x with _ => _ end] => is_var x; destruct x
     end).

Section ViewState.

Import App.

Lemma reachable_run (s : Session) (evs : list Event) :
  reachable s -> reachable (run s evs).
Proof.
  revert s. induction evs as [|ev evs IH]; intros s Hs; simpl; auto.
  apply IH. constructor. exact Hs.
Qed.


(** *** The chat list *)

(** C2, as stated, fails: after a generation and one question the chat
    list holds two turns; restoring the history entry replaces them by a
    single new turn. *)
Lemma chat_list_not_append_only :
  exists s ev,
    reachable s
    /\ ~ Claims.extends_at_end
           (chatMessages (ui s)) (chatMessages (ui (step s ev))).
Proof.
  exists (run initialSession question_sent), (EvRestore 0 3000 3000).
  split.
  - apply reachable_run. constructor.
  - intros [more H]. apply (f_equal (@length ChatMessage)) in H.
    rewrite length_app in H. vm_compute in H. lia.
Qed.

(** C2, amended: sending a question adds the user's turn at the end of
    the chat list (or changes nothing when the input is blank or a request
    is in flight), and the settling of a chat request adds one assistant
    turn at the end, the reply or the error text.  A generation result
    delivered to its pending request, and restoring an existing history
    entry, replace the whole list by a list of one new assistant turn.
    Every other event, and these when they find nothing to act on, leave
    the list as it is; no event changes a turn in place. *)
Theorem chat_list_appended_or_restarted (s : Session) (ev : Event) :
  let before := chatMessages (ui s) in
  let after := chatMessages (ui (step s ev)) in
  match ev with
  | EvChatSubmit now1 now2 =>
      if negb (truthy (trim (chatInput (ui s)))) || isChatLoading (ui s)
      then after = before
      else after
           = before ++ [ {| id := toString now1;
                            role := user;
                            content := chatInput (ui s);
                            hasCodeUpdate := None;
                            timestamp := now2 |} ]
  | EvChatSettled n outcome _ _ =>
      match nth_error (inflight s) n with
      | Some (PendingChat _ _ _ _) =>
          exists turn,
            after = before ++ [turn] /\ role turn = model
            /\ content turn
               = match outcome with
                 | Ok result => reply result
                 | Throw _ =>
                     lit "I encountered an error while processing your request. Please try again."
                 end
      | _ => after = before
      end
  | EvGenerateSettled n (Ok result) _ _ now3 now4 =>
      match nth_error (inflight s) n with
      | Some (PendingGenerate _ codeType _) =>
          after
          = [ {| id := toString now3;
                 role := model;
                 content :=
                   lit "I've generated the " ++ CodeType_value codeType
                     ++ lit " code based on your request. "
                     ++ gr_explanation result;
                 hasCodeUpdate := None;
                 timestamp := now4 |} ]
      | _ => after = before
      end
  | EvRestore n now1 now2 =>
      match nth_error (history (ui s)) n with
      | Some item =>
          after
          = [ {| id := toString now1;
                 role := model;
                 content := lit "Restored version: " ++ hi_prompt item;
                 hasCodeUpdate := None;
                 timestamp := now2 |} ]
      | None => after = before
      end
  | _ => after = before
  end.
Proof.
  destruct s as [st calls].
  destruct ev as [v|v|v|v|file| |inside| |file| | |now1 now2|n now1 now2
                  |n outcome now1 now2 now3 now4|n outcome now1 now2
                  |n getDocument]; unfold step; cbn [ui inflight];
    try reflexivity.
  - destruct file as [f|]; [|reflexivity].
    unfold calling, handleFileChange, processFile_call. cbn [ui].
    destruct (negb (eqb_str (file_type f) (lit "application/pdf")));
      reflexivity.
  - destruct inside; reflexivity.
  - destruct file as [f|]; [|reflexivity].
    unfold calling, handleDrop, processFile_call. cbn [ui].
    destruct (negb (eqb_str (file_type f) (lit "application/pdf")));
      reflexivity.
  - unfold calling, handleGenerate_call. cbn [ui].
    destruct (negb (truthy (trim (prompt st)))); reflexivity.
  - unfold calling, handleChatSubmit_call. cbn [ui].
    destruct (negb (truthy (trim (chatInput st))) || isChatLoading st);
      reflexivity.
  - destruct (nth_error (history st) n) as [item|]; reflexivity.
  - destruct outcome as [r|e].
    + destruct (nth_error calls n) as [[p ty d| |]|]; reflexivity.
    + destruct (nth_error calls n) as [[p ty d| |]|]; reflexivity.
  - destruct (nth_error calls n) as [[|c h m d|]|]; try reflexivity.
    unfold settling, handleChatSubmit_settled. cbn [ui].
    destruct outcome as [r|e].
    + destruct (updatedCode r) as [c'|]; [destruct (truthy c')|];
        (eexists; split; [reflexivity | split; reflexivity]).
    + eexists; split; [reflexivity | split; reflexivity].
  - destruct (nth_error calls n) as [[| |file]|]; try reflexivity.
    unfold settling, processFile_settled. cbn [ui].
    destruct (PdfHelper.extractTextFromPdf getDocument file); reflexivity.
Qed.

(** *** The generation history *)

Lemma history_step (s : Session) (ev : Event) :
  match ev with
  | EvGenerateSettled n (Ok result) now1 now2 _ _ =>
      match nth_error (inflight s) n with
      | Some (PendingGenerate prompt codeType _) =>
          history (ui (step s ev))
          = {| hi_id := toString now1;
               hi_prompt := prompt;
               hi_type := codeType;
               hi_code := gr_code result;
               hi_timestamp := now2 |} :: history (ui s)
      | _ => history (ui (step s ev)) = history (ui s)
      end
  | _ => history (ui (step s ev)) = history (ui s)
  end.
Proof.
  destruct s as [st calls]. destruct ev; open_step; simpl;
    split_cases; simpl; eauto.
Qed.

Lemma history_step_extends (s : Session) (ev : Event) :
  exists newer, history (ui (step s ev)) = newer ++ history (ui s).
Proof.
  pose proof (history_step s ev) as H.
  destruct ev; try (exists []; exact H).
  destruct outcome; [|exists []; exact H].
  destruct (nth_error (inflight s) n) as [[| |]|];
    try (exists []; exact H).
  eexists [_]. exact H.
Qed.

(** C7: a successful generation puts one new record in front of the
    history list, made of the prompt and artifact kind the request was
    sent with, the code returned, and the clock readings; no other event
    changes the list, and whatever happens later the records already there
    stay, unchanged and in order, at the end of the list. *)
Theorem history_grows_at_front_only
    (s : Session) (ev : Event) (later : list Event) :
  match ev with
  | EvGenerateSettled n (Ok result) now1 now2 _ _ =>
      match nth_error (inflight s) n with
      | Some (PendingGenerate prompt codeType _) =>
          history (ui (step s ev))
          = {| hi_id := toString now1;
               hi_prompt := prompt;
               hi_type := codeType;
               hi_code := gr_code result;
               hi_timestamp := now2 |} :: history (ui s)
      | _ => history (ui (step s ev)) = history (ui s)
      end
  | _ => history (ui (step s ev)) = history (ui s)
  end
  /\ exists newer, history (ui (run s later)) = newer ++ history (ui s).
Proof.
  split; [apply history_step|].
  revert s. induction later as [|e later IH]; intros s.
  - exists []. reflexivity.
  - simpl. destruct (IH (step s e)) as [newer Hrun].
    destruct (history_step_extends s e) as [new1 Hstep].
    exists (newer ++ new1). rewrite Hrun, Hstep, app_assoc. reflexivity.
Qed.

(** *** Identifiers *)

(** C3: identifiers are clock readings.  The reply to a question gets the
    reading plus one, the error turn gets the bare reading: when the
    request fails while the clock still shows the reading the question was
    sent at, the question and the error turn carry the same identifier. *)
Theorem chat_ids_collide_within_a_millisecond :
  reachable (run initialSession question_failed_at_once)
  /\ map id (chatMessages (ui (run initialSession question_failed_at_once)))
     = [lit "1000"; lit "2000"; lit "2000"]
  /\ ~ NoDup
         (map id
            (chatMessages (ui (run initialSession question_failed_at_once))))
  /\ map id
       (chatMessages
          (ui (run initialSession
                 (question_sent
                  ++ [EvChatSettled 0
                        (Ok (mkChatResult (lit "Done.") None)) 2000 2000]))))
     = [lit "1000"; lit "2000"; lit "2001"].
Proof.
  split; [apply reachable_run; constructor|].
  split; [reflexivity|]. split; [|reflexivity].
  replace (map id
             (chatMessages
                (ui (run initialSession question_failed_at_once))))
    with [lit "1000"; lit "2000"; lit "2000"] by reflexivity.
  intros Hnodup. inversion Hnodup as [|x l Hnotin Hrest]; subst.
  inversion Hrest as [|y l' Hnotin' _]; subst.
  apply Hnotin'. left. reflexivity.
Qed.

(** The same in any state: a question that is sent and fails at one clock
    reading leaves two turns with one identifier. *)
Lemma failed_question_repeats_its_id
    (st : State) (now ts1 ts2 : Z) (e : JsError) :
  truthy (trim (chatInput st)) = true ->
  isChatLoading st = false ->
  ~ NoDup
      (map id
         (chatMessages (handleChatSubmit now ts1 (Throw e) now ts2 st))).
Proof.
  intros Hinput Hidle.
  unfold handleChatSubmit, handleChatSubmit_call.
  rewrite Hinput, Hidle. simpl.
  rewrite <- app_assoc, map_app. simpl.
  intros Hnodup. apply NoDup_app_remove_l in Hnodup.
  inversion Hnodup as [|x l Hnotin _]; subst.
  apply Hnotin. left. reflexivity.
Qed.

(** The offset of the reply collides in turn with a question sent one
    millisecond after the reply arrived. *)
Lemma reply_id_collides_with_next_question :
  map id (chatMessages (ui (run initialSession question_after_reply)))
  = [lit "1000"; lit "2000"; lit "2501"; lit "2501"].
Proof. reflexivity. Qed.

(** *** Uploading a PDF *)

(** C9: when the extraction a [processFile] waits for fails, the
    continuation leaves no uploaded file and empty PDF content, whatever
    was there before, and reports the error; when it succeeds the PDF
    content becomes the extracted text.  Either way parsing is over.  The
    same holds of [processFile] run in one go on a PDF file. *)
Theorem processFile_failure_leaves_no_file
    (getDocument : list N -> result PdfHelper.PdfDocument) (file : File) :
  (forall (n : nat) (s : Session),
      nth_error (inflight s) n = Some (PendingPdf file) ->
      let st := ui (step s (EvPdfSettled n getDocument)) in
      match PdfHelper.extractTextFromPdf getDocument file with
      | Throw err =>
          uploadedFile st = None /\ pdfContent st = []
          /\ error st
             = Some (or_else (message err) (lit "Failed to parse PDF."))
      | Ok extracted =>
          pdfContent st = extracted /\ uploadedFile st = uploadedFile (ui s)
      end
      /\ isParsingPdf st = false)
  /\ (forall st0 : State,
        file_type file = lit "application/pdf" ->
        let st := processFile getDocument file st0 in
        match PdfHelper.extractTextFromPdf getDocument file with
        | Throw err =>
            uploadedFile st = None /\ pdfContent st = []
            /\ error st
               = Some (or_else (message err) (lit "Failed to parse PDF."))
        | Ok extracted =>
            pdfContent st = extracted /\ uploadedFile st = Some file
        end
        /\ isParsingPdf st = false).
Proof.
  split.
  - intros n s Hcall. destruct s as [st0 calls]. simpl in Hcall.
    unfold step. simpl inflight. rewrite Hcall.
    unfold settling, processFile_settled. simpl ui.
    destruct (PdfHelper.extractTextFromPdf getDocument file); simpl; auto.
  - intros st0 Htype. unfold processFile, processFile_call.
    rewrite Htype. simpl negb. cbv iota.
    unfold processFile_settled.
    destruct (PdfHelper.extractTextFromPdf getDocument file); simpl; auto.
Qed.

Lemma processFile_failure_leaves_no_file_witness :
  let st := ui (run initialSession
                  (pdf_chosen ++ [EvPdfSettled 0 failing_pdfjs])) in
  let st' := processFile failing_pdfjs pdf_file initialState in
  (uploadedFile st = None /\ pdfContent st = [] /\ isParsingPdf st = false)
  /\ (uploadedFile st' = None /\ pdfContent st' = []).
Proof.
  destruct (processFile_failure_leaves_no_file failing_pdfjs pdf_file)
    as [Hsettled Hwhole].
  pose proof (Hsettled 0%nat (run initialSession pdf_chosen) eq_refl) as H.
  pose proof (Hwhole initialState eq_refl) as H'.
  simpl in H, H'.
  destruct H as [(Hfile & Hcontent & _) Hparsing].
  destruct H' as [(Hfile' & Hcontent' & _) _].
  simpl. repeat split; assumption.
Defined.

(** *** Blank input *)

(** C10: with a prompt of white space only (or empty), [handleGenerate]
    makes no adapter call and leaves the session as it is; so does
    [handleChatSubmit] when the chat input trims to nothing or a chat
    request is in flight. *)
Theorem blank_input_dispatches_nothing (s : Session) (now1 now2 : Z) :
  (all_space (prompt (ui s)) = true ->
   handleGenerate_call (ui s) = (ui s, None) /\ step s EvGenerate = s)
  /\ (trim (chatInput (ui s)) = [] \/ isChatLoading (ui s) = true ->
      handleChatSubmit_call now1 now2 (ui s) = (ui s, None)
      /\ step s (EvChatSubmit now1 now2) = s).
Proof.
  destruct s as [st calls]. simpl ui. split.
  - intros Hblank.
    assert (Hcall : handleGenerate_call st = (st, None)).
    { unfold handleGenerate_call. rewrite trim_blank by exact Hblank.
      reflexivity. }
    split; [exact Hcall|].
    unfold step, calling. simpl ui. rewrite Hcall. reflexivity.
  - intros Hblank.
    assert (Hcall : handleChatSubmit_call now1 now2 st = (st, None)).
    { unfold handleChatSubmit_call. destruct Hblank as [-> | ->].
      - reflexivity.
      - rewrite orb_true_r. reflexivity. }
    split; [exact Hcall|].
    unfold step, calling. simpl ui. rewrite Hcall. reflexivity.
Qed.

Lemma blank_input_dispatches_nothing_witness :
  step (run initialSession [EvSetPrompt (lit "   ")]) EvGenerate
  = run initialSession [EvSetPrompt (lit "   ")]
  /\ step (run initialSession question_sent) (EvChatSubmit 2001 2001)
     = run initialSession question_sent.
Proof.
  split.
  - apply (proj1 (blank_input_dispatches_nothing
                    (run initialSession [EvSetPrompt (lit "   ")]) 0 0)).
    reflexivity.
  - apply (proj2 (blank_input_dispatches_nothing
                    (run initialSession question_sent) 2001 2001)).
    left. reflexivity.
Defined.

End ViewState.

(* ================================================================== *)
(** * Further properties of the handlers and adapters *)

(** ** Uploading and removing documentation *)

Section Uploads.

Import App.

Lemma eqb_str_neq (a b : jsstring) : a <> b -> eqb_str a b = false.
Proof.
  intros Hne. destruct (eqb_str a b) eqn:H; [|reflexivity].
  apply eqb_str_eq in H. contradiction.
Qed.

Lemma truthy_nonempty (x : jsstring) : x <> [] -> truthy x = true.
Proof. destruct x; [congruence | reflexivity]. Qed.

(** X1: a file whose type is not [application/pdf] is turned away, chosen
    or dropped alike: the error text is set, no extraction starts, and the
    file and documentation already there stay as they are. *)
Theorem non_pdf_is_turned_away (file : File) (s : Session) :
  file_type file <> lit "application/pdf" ->
  forall ev, ev = EvFileChange (Some file) \/ ev = EvDrop (Some file) ->
  let s' := step s ev in
  inflight s' = inflight s
  /\ error (ui s') = Some (lit "Please upload a valid PDF file.")
  /\ uploadedFile (ui s') = uploadedFile (ui s)
  /\ pdfContent (ui s') = pdfContent (ui s)
  /\ isParsingPdf (ui s') = isParsingPdf (ui s).
Proof.
  intros Htype ev Hev. apply eqb_str_neq in Htype.
  destruct s as [st calls].
  destruct Hev as [-> | ->]; unfold step, calling, handleFileChange,
    handleDrop, processFile_call; simpl ui; rewrite Htype; simpl;
    repeat split; reflexivity.
Qed.

Lemma non_pdf_is_turned_away_witness :
  let s' := step (run initialSession first_generation)
              (EvDrop (Some png_file)) in
  inflight s' = []
  /\ error (ui s') = Some (lit "Please upload a valid PDF file.").
Proof.
  destruct (non_pdf_is_turned_away png_file
              (run initialSession first_generation)
              ltac:(discriminate) (EvDrop (Some png_file))
              (or_intror eq_refl))
    as (Hcalls & Herror & _).
  split; [exact Hcalls | exact Herror].
Defined.

(** X2: once the file has been removed, the next generation request
    carries no documentation section: its prompt is the head followed
    directly by the closing instruction. *)
Theorem generation_after_removeFile_has_no_documentation (s : Session) :
  trim (prompt (ui s)) <> [] ->
  let s' := run s [EvRemoveFile; EvGenerate] in
  exists call req,
    inflight s' = inflight s ++ [call]
    /\ outbound call = Some req
    /\ contents req
       = generate_head (prompt (ui s)) (codeType (ui s)) ++ generate_tail.
Proof.
  intros Hprompt. apply truthy_nonempty in Hprompt.
  destruct s as [st calls]. simpl in Hprompt.
  unfold run, fold_left, step, only_ui, calling, removeFile,
    handleGenerate_call. simpl.
  rewrite Hprompt. simpl.
  eexists. eexists. repeat split.
Qed.

Lemma generation_after_removeFile_has_no_documentation_witness :
  exists call req,
    inflight (run (run initialSession [EvSetPrompt (lit "EMA cross")])
                [EvRemoveFile; EvGenerate]) = [] ++ [call]
    /\ outbound call = Some req
    /\ contents req
       = generate_head (lit "EMA cross") EXPERT_ADVISOR ++ generate_tail.
Proof.
  apply (generation_after_removeFile_has_no_documentation
           (run initialSession [EvSetPrompt (lit "EMA cross")])).
  discriminate.
Defined.

Lemma extractTextFromPdf_throws_fixed
    (getDocument : list N -> result PdfHelper.PdfDocument) (file : File)
    (e : JsError) :
  PdfHelper.extractTextFromPdf getDocument file = Throw e ->
  e = PdfHelper.PDF_ERROR.
Proof.
  unfold PdfHelper.extractTextFromPdf, try_catch_throw.
  destruct (bind _ _); congruence.
Qed.

(** X3: whatever goes wrong while a PDF is read, and whatever message the
    underlying failure carried, the error text the view ends up with is
    the adapter's own fixed sentence; the handler's fallback text is never
    used. *)
Theorem pdf_failure_shows_the_adapter_message
    (getDocument : list N -> result PdfHelper.PdfDocument)
    (file : File) (n : nat) (s : Session) (e : JsError) :
  nth_error (inflight s) n = Some (PendingPdf file) ->
  PdfHelper.extractTextFromPdf getDocument file = Throw e ->
  error (ui (step s (EvPdfSettled n getDocument)))
  = Some (lit "Failed to extract text from PDF. The file might be corrupted or encrypted.").
Proof.
  intros Hcall Hfail.
  pose proof (extractTextFromPdf_throws_fixed _ _ _ Hfail) as ->.
  destruct s as [st calls]. simpl in Hcall.
  unfold step. simpl inflight. rewrite Hcall, Hfail. reflexivity.
Qed.

Lemma pdf_failure_shows_the_adapter_message_witness :
  error (ui (run initialSession
               (pdf_chosen ++ [EvPdfSettled 0 failing_pdfjs])))
  = Some (lit "Failed to extract text from PDF. The file might be corrupted or encrypted.").
Proof.
  apply (pdf_failure_shows_the_adapter_message failing_pdfjs pdf_file 0
           (run initialSession pdf_chosen) PdfHelper.PDF_ERROR);
    reflexivity.
Defined.

(** X4: the extracted documentation changes only when a file is removed
    or an extraction settles, and the uploaded file only through the file
    events: generating, chatting, restoring from history, typing and
    switching tabs leave both as they are. *)
Theorem documentation_persists (s : Session) (ev : Event) :
  match ev with
  | EvRemoveFile | EvPdfSettled _ _ => True
  | EvFileChange _ | EvDrop _ =>
      pdfContent (ui (step s ev)) = pdfContent (ui s)
  | _ =>
      pdfContent (ui (step s ev)) = pdfContent (ui s)
      /\ uploadedFile (ui (step s ev)) = uploadedFile (ui s)
  end.
Proof.
  destruct s as [st calls]. destruct ev; open_step; simpl;
    split_cases; simpl; auto.
Qed.

End Uploads.

(** ** More on trimming and fences *)

Section Fences.

Lemma trimStart_length (s : jsstring) :
  (length (trimStart s) <= length s)%nat.
Proof.
  induction s as [|c s IH]; simpl; [lia|].
  destruct (is_space c); simpl; lia.
Qed.

Lemma trimStart_idem (s : jsstring) : trimStart (trimStart s) = trimStart s.
Proof.
  induction s as [|c s IH]; simpl; [reflexivity|].
  destruct (is_space c) eqn:Hc; [exact IH|]. simpl. rewrite Hc. reflexivity.
Qed.

Lemma trimEnd_idem (s : jsstring) : trimEnd (trimEnd s) = trimEnd s.
Proof.
  unfold trimEnd. rewrite rev_involutive, trimStart_idem. reflexivity.
Qed.

Lemma trimEnd_split (s : jsstring) :
  exists w, all_space w = true /\ s = trimEnd s ++ w.
Proof.
  destruct (trimStart_split (rev s)) as (w & Hw & Hs).
  exists (rev w). split; [rewrite all_space_rev; exact Hw|].
  unfold trimEnd. rewrite <- rev_app_distr, <- Hs, rev_involutive.
  reflexivity.
Qed.

(** A string without leading white space keeps none in its prefixes. *)
Lemma trimStart_fixed_prefix (a b : jsstring) :
  trimStart (a ++ b) = a ++ b -> trimStart a = a.
Proof.
  destruct a as [|c a]; simpl; [reflexivity|].
  destruct (is_space c); [|reflexivity].
  intros H. pose proof (trimStart_length (a ++ b)) as Hlen.
  rewrite H in Hlen. simpl in Hlen. lia.
Qed.

Lemma trimEnd_fixed_iff (s : jsstring) :
  trimEnd s = s <-> trimStart (rev s) = rev s.
Proof.
  unfold trimEnd. split; intros H.
  - rewrite <- H at 2. rewrite rev_involutive. reflexivity.
  - rewrite H. apply rev_involutive.
Qed.

(** A string without trailing white space keeps none in its suffixes. *)
Lemma trimEnd_fixed_suffix (a b : jsstring) :
  trimEnd (a ++ b) = a ++ b -> trimEnd b = b.
Proof.
  rewrite !trimEnd_fixed_iff, rev_app_distr. apply trimStart_fixed_prefix.
Qed.

Lemma trimStart_of_trimEnd (s : jsstring) :
  trimStart s = s -> trimStart (trimEnd s) = trimEnd s.
Proof.
  intros H. destruct (trimEnd_split s) as (w & _ & Hs).
  apply (trimStart_fixed_prefix (trimEnd s) w). rewrite <- Hs. exact H.
Qed.

Lemma trimEnd_of_trimStart (s : jsstring) :
  trimEnd s = s -> trimEnd (trimStart s) = trimStart s.
Proof.
  intros H. destruct (trimStart_split s) as (w & _ & Hs).
  apply (trimEnd_fixed_suffix w (trimStart s)). rewrite <- Hs. exact H.
Qed.

Lemma trim_fixed (s : jsstring) :
  trimStart s = s -> trimEnd s = s -> trim s = s.
Proof. intros H1 H2. unfold trim. rewrite H1. exact H2. Qed.

Lemma trim_fixed_inv (s : jsstring) :
  trim s = s -> trimStart s = s /\ trimEnd s = s.
Proof.
  unfold trim. intros H. split.
  - rewrite <- H. apply trimStart_of_trimEnd. apply trimStart_idem.
  - rewrite <- H. apply trimEnd_idem.
Qed.

Lemma trimStart_trim (s : jsstring) : trimStart (trim s) = trim s.
Proof. apply trimStart_of_trimEnd, trimStart_idem. Qed.

Lemma trimEnd_trim (s : jsstring) : trimEnd (trim s) = trim s.
Proof. apply trimEnd_idem. Qed.

Lemma trimEnd_all_space (a w : jsstring) :
  all_space w = true -> trimEnd (a ++ w) = trimEnd a.
Proof.
  intros Hw. unfold trimEnd. rewrite rev_app_distr.
  rewrite trimStart_all_space by (rewrite all_space_rev; exact Hw).
  reflexivity.
Qed.

Lemma trimEnd_fence (y : jsstring) : trimEnd (y ++ fence) = y ++ fence.
Proof.
  apply trimEnd_fixed_iff. rewrite rev_app_distr. reflexivity.
Qed.

Lemma trimStart_fence (y : jsstring) : trimStart (fence ++ y) = fence ++ y.
Proof. reflexivity. Qed.

(** What [cleanJsonOutput] does after the opening fence is gone. *)
Lemma closing_fence_cases (r : jsstring) :
  (exists body, r = body ++ fence /\ replace_trailing fence r = trimEnd body)
  \/ (has_suffix fence r = false /\ replace_trailing fence r = r).
Proof.
  destruct (has_suffix fence r) eqn:Hs.
  - left. apply has_suffix_app in Hs. destruct Hs as [body ->].
    exists body. split; [reflexivity|].
    apply replace_trailing_match. reflexivity.
  - right. split; [reflexivity|]. apply replace_trailing_no_match, Hs.
Qed.

Lemma cleaned_after_opening (t opening rest : jsstring) :
  t = opening ++ rest -> trimEnd t = t ->
  let out := replace_trailing fence (trimStart rest) in
  trimStart out = out /\ trimEnd out = out.
Proof.
  intros Ht Hend out. subst out.
  assert (Hrest : trimEnd (trimStart rest) = trimStart rest).
  { apply trimEnd_of_trimStart.
    apply (trimEnd_fixed_suffix opening rest). rewrite <- Ht. exact Hend. }
  destruct (closing_fence_cases (trimStart rest))
    as [(body & Hbody & ->) | (_ & ->)].
  - split; [|apply trimEnd_idem].
    apply trimStart_of_trimEnd.
    apply (trimStart_fixed_prefix body fence).
    rewrite <- Hbody. apply trimStart_idem.
  - split; [apply trimStart_idem | exact Hrest].
Qed.

(** X5: what [cleanJsonOutput] returns never begins or ends with white
    space, fenced or not: trimming it again changes nothing. *)
Theorem cleanJsonOutput_is_trimmed (text : jsstring) :
  trim (cleanJsonOutput text) = cleanJsonOutput text.
Proof.
  unfold cleanJsonOutput.
  destruct (startsWith fence_json (trim text)) eqn:Hj.
  - pose proof Hj as Hsplit. apply startsWith_app in Hsplit.
    destruct Hsplit as [rest Ht].
    unfold replace_leading. rewrite Hj.
    rewrite Ht, skipn_prefix.
    destruct (cleaned_after_opening _ _ _ Ht (trimEnd_trim text)) as [H1 H2].
    apply trim_fixed; assumption.
  - destruct (startsWith fence (trim text)) eqn:Hf.
    + pose proof Hf as Hsplit. apply startsWith_app in Hsplit.
      destruct Hsplit as [rest Ht].
      unfold replace_leading. rewrite Hf.
      rewrite Ht, skipn_prefix.
      destruct (cleaned_after_opening _ _ _ Ht (trimEnd_trim text))
        as [H1 H2].
      apply trim_fixed; assumption.
    + apply trim_fixed; [apply trimStart_trim | apply trimEnd_trim].
Qed.

(** X6: a reply that wraps a trimmed body in a json fence, with any white
    space around the fences and around the whole, is unwrapped to exactly
    that body. *)
Theorem fenced_json_is_unwrapped (ws1 ws2 ws3 ws4 body : jsstring) :
  all_space ws1 = true -> all_space ws2 = true ->
  all_space ws3 = true -> all_space ws4 = true ->
  trim body = body ->
  cleanJsonOutput
    (ws1 ++ fence_json ++ ws2 ++ body ++ ws3 ++ fence ++ ws4)
  = body.
Proof.
  intros H1 H2 H3 H4 Hbody.
  apply trim_fixed_inv in Hbody. destruct Hbody as [Hstart Hend].
  set (rest := ws2 ++ body ++ ws3 ++ fence).
  assert (Ht : trim (ws1 ++ fence_json ++ ws2 ++ body ++ ws3 ++ fence ++ ws4)
               = fence_json ++ rest).
  { unfold trim. rewrite trimStart_all_space by exact H1.
    change (trimStart (fence_json ++ ws2 ++ body ++ ws3 ++ fence ++ ws4))
      with (fence_json ++ ws2 ++ body ++ ws3 ++ fence ++ ws4).
    replace (fence_json ++ ws2 ++ body ++ ws3 ++ fence ++ ws4)
      with (((fence_json ++ ws2 ++ body ++ ws3) ++ fence) ++ ws4)
      by (rewrite <- !app_assoc; reflexivity).
    rewrite trimEnd_all_space by exact H4.
    rewrite trimEnd_fence. subst rest. rewrite <- !app_assoc. reflexivity. }
  unfold cleanJsonOutput. rewrite Ht.
  assert (Hj : startsWith fence_json (fence_json ++ rest) = true)
    by (apply startsWith_app; eauto).
  rewrite Hj. unfold replace_leading. rewrite Hj, skipn_prefix.
  subst rest. rewrite trimStart_all_space by exact H2.
  destruct body as [|c body].
  - simpl app. rewrite trimStart_all_space by exact H3.
    change (trimStart fence) with ([] ++ fence).
    rewrite replace_trailing_match by reflexivity. reflexivity.
  - assert (Hc : is_space c = false).
    { simpl in Hstart. destruct (is_space c); [|reflexivity].
      pose proof (trimStart_length body) as Hlen.
      rewrite Hstart in Hlen. simpl in Hlen. lia. }
    replace (trimStart ((c :: body) ++ ws3 ++ fence))
      with (((c :: body) ++ ws3) ++ fence)
      by (simpl; rewrite Hc, <- app_assoc; reflexivity).
    rewrite replace_trailing_match by reflexivity.
    rewrite trimEnd_all_space by exact H3. exact Hend.
Qed.

Lemma fenced_json_is_unwrapped_witness :
  cleanJsonOutput
    (lit "  " ++ fence_json ++ nl ++ lit "{}" ++ nl ++ fence ++ nl)
  = lit "{}".
Proof.
  apply (fenced_json_is_unwrapped (lit "  ") nl nl nl (lit "{}"));
    reflexivity.
Defined.

End Fences.

(** ** Documents without pages *)

Section EmptyDocuments.

Import PdfHelper.

Variable getDocument : list N -> result PdfDocument.

(** X7: a readable document yields the empty string exactly when it
    reports no pages (a count of zero or less): no error is raised for it,
    and every document with at least one page yields text that is not
    empty. *)
Theorem extracted_text_empty_iff_no_pages
    (file : File) (data : list N) (doc : PdfDocument) :
  arrayBuffer file = Ok data ->
  getDocument data = Ok doc ->
  ((numPages doc <= 0)%Z -> extractTextFromPdf getDocument file = Ok [])
  /\ (forall extracted,
        extractTextFromPdf getDocument file = Ok extracted ->
        (extracted = [] <-> (numPages doc <= 0)%Z)).
Proof.
  intros Hbuf Hdoc. unfold extractTextFromPdf.
  rewrite Hbuf; simpl. rewrite Hdoc; simpl. split.
  - intros Hn. replace (Z.to_nat (numPages doc)) with 0%nat by lia.
    reflexivity.
  - intros extracted Hok.
    destruct (page_loop doc (Z.to_nat (numPages doc)) 1 []) as [out|e]
      eqn:Hloop; simpl in Hok; [|discriminate].
    inversion Hok; subst out. clear Hok.
    apply page_loop_sound in Hloop.
    destruct Hloop as (texts & Hlen & _ & ->). simpl app.
    destruct texts as [|t rest]; simpl in *.
    + split; [lia | reflexivity].
    + split; [|lia]. intros Hnil. discriminate Hnil.
Qed.

End EmptyDocuments.

Section EmptyDocumentsInTheView.

Import PdfHelper.

Lemma extracted_text_empty_iff_no_pages_witness :
  extractTextFromPdf empty_pdfjs pdf_file = Ok [].
Proof.
  apply (proj1 (extracted_text_empty_iff_no_pages empty_pdfjs pdf_file
                  [37%N] empty_doc eq_refl eq_refl)).
  simpl. lia.
Defined.

(** X8: a PDF without pages is accepted as the uploaded file, yet it
    contributes nothing: the generation request that follows has no
    documentation section. *)
Theorem pageless_pdf_adds_no_documentation
    (getDocument : list N -> result PdfDocument)
    (file : File) (data : list N) (doc : PdfDocument) (st : State) :
  file_type file = lit "application/pdf" ->
  arrayBuffer file = Ok data ->
  getDocument data = Ok doc ->
  (numPages doc <= 0)%Z ->
  trim (prompt st) <> [] ->
  let st' := processFile getDocument file st in
  uploadedFile st' = Some file
  /\ pdfContent st' = []
  /\ exists call req,
       snd (handleGenerate_call st') = Some call
       /\ outbound call = Some req
       /\ contents req
          = generate_head (prompt st) (codeType st) ++ generate_tail.
Proof.
  intros Htype Hbuf Hdoc Hpages Hprompt.
  apply truthy_nonempty in Hprompt.
  assert (Hext : extractTextFromPdf getDocument file = Ok []).
  { unfold extractTextFromPdf. rewrite Hbuf; simpl. rewrite Hdoc; simpl.
    replace (Z.to_nat (numPages doc)) with 0%nat by lia. reflexivity. }
  unfold processFile, processFile_call. rewrite Htype. simpl negb. cbv iota.
  rewrite Hext. unfold processFile_settled, handleGenerate_call. simpl.
  rewrite Hprompt. simpl.
  split; [reflexivity|]. split; [reflexivity|].
  eexists. eexists. repeat split.
Qed.

Lemma pageless_pdf_adds_no_documentation_witness :
  let st := setPrompt (lit "EMA cross") initialState in
  let st' := processFile empty_pdfjs pdf_file st in
  uploadedFile st' = Some pdf_file /\ pdfContent st' = [].
Proof.
  destruct (pageless_pdf_adds_no_documentation empty_pdfjs pdf_file
              [37%N] empty_doc (setPrompt (lit "EMA cross") initialState)
              eq_refl eq_refl eq_refl ltac:(simpl; lia)
              ltac:(discriminate)) as (Hfile & Hcontent & _).
  split; assumption.
Defined.

End EmptyDocumentsInTheView.

(** ** Generation failures *)

Section GenerationFailures.

Lemma or_else_truthy (o : option jsstring) (d : jsstring) :
  truthy d = true -> truthy (or_else o d) = true.
Proof.
  intros Hd. unfold or_else. destruct o as [m|]; [|exact Hd].
  destruct (truthy m) eqn:Hm; [exact Hm | exact Hd].
Qed.

(** X9: when a generation request fails, its continuation, in whatever
    state the session is by then, leaves the error box shown (also when
    the thrown value has no message or an empty one), the error
    placeholder in the code pane, the busy flag off, and history and chat as
    they were.  When the request succeeds the continuation leaves the
    error text as it was and turns the busy flag off.  Starting a
    generation with a prompt that is not blank clears the error text. *)
Theorem failed_generation_is_always_reported
    (s : Session) (n : nat) (prompt0 : jsstring) (type : CodeType)
    (doc : jsstring) (e : JsError) (result : GenerateResult)
    (now1 now2 now3 now4 : Z) :
  (nth_error (inflight s) n = Some (PendingGenerate prompt0 type doc) ->
   let failed :=
     ui (step s (EvGenerateSettled n (Throw e) now1 now2 now3 now4)) in
   let done :=
     ui (step s (EvGenerateSettled n (Ok result) now1 now2 now3 now4)) in
   errorShown failed = true
   /\ currentCode failed = lit "// Error generating code."
   /\ isGenerating failed = false
   /\ history failed = history (ui s)
   /\ chatMessages failed = chatMessages (ui s)
   /\ error done = error (ui s)
   /\ isGenerating done = false)
  /\ (trim (prompt (ui s)) <> [] ->
      error (ui (step s EvGenerate)) = None
      /\ isGenerating (ui (step s EvGenerate)) = true).
Proof.
  destruct s as [st calls]. split.
  - cbn [inflight]. intros Hn. unfold step. cbn [inflight]. rewrite Hn.
    unfold settling, handleGenerate_settled, errorShown. simpl.
    repeat split. apply or_else_truthy. reflexivity.
  - cbn [ui]. intros Hprompt. apply truthy_nonempty in Hprompt.
    unfold step, calling, handleGenerate_call. cbn [ui].
    rewrite Hprompt. split; reflexivity.
Qed.

Lemma failed_generation_is_always_reported_witness :
  errorShown
    (ui (step (run initialSession
                 [EvSetPrompt (lit "EMA cross"); EvGenerate])
           (EvGenerateSettled 0 (Throw (mkError None)) 0 0 0 0))) = true
  /\ error (ui (run initialSession
                  [EvSetPrompt (lit "EMA cross"); EvGenerate])) = None.
Proof.
  split.
  - apply (proj1 (failed_generation_is_always_reported
                    (run initialSession
                       [EvSetPrompt (lit "EMA cross"); EvGenerate])
                    0 (lit "EMA cross") EXPERT_ADVISOR [] (mkError None)
                    (mkGenerateResult [] []) 0 0 0 0)).
    reflexivity.
  - apply (proj2 (failed_generation_is_always_reported
                    (run initialSession [EvSetPrompt (lit "EMA cross")])
                    0 [] EXPERT_ADVISOR [] (mkError None)
                    (mkGenerateResult [] []) 0 0 0 0)).
    discriminate.
Defined.

(** X10: when a generation request fails and the user then types a
    question and sends it, the chat request goes out with the error
    placeholder as the current code: the pane text is withheld only when
    it starts with "// Your MQL5 code", which the error placeholder does
    not.  With it go the chat list as it stood, the question and the
    current documentation. *)
Theorem chat_after_failed_generation_sends_placeholder
    (s : Session) (n : nat) (prompt0 : jsstring) (type : CodeType)
    (doc : jsstring) (e : JsError) (question : jsstring)
    (now1 now2 now3 now4 now5 now6 : Z) :
  nth_error (inflight s) n = Some (PendingGenerate prompt0 type doc) ->
  trim question <> [] ->
  isChatLoading (ui s) = false ->
  let failed :=
    step s (EvGenerateSettled n (Throw e) now1 now2 now3 now4) in
  let typed := step failed (EvSetChatInput question) in
  inflight (step typed (EvChatSubmit now5 now6))
  = inflight typed
    ++ [ PendingChat (lit "// Error generating code.")
           (chatMessages (ui s)) question (pdfContent (ui s)) ].
Proof.
  intros Hn Hquestion Hidle. apply truthy_nonempty in Hquestion.
  destruct s as [st calls]. cbn [ui inflight] in *.
  unfold step. cbn [inflight]. rewrite Hn.
  unfold settling, only_ui, calling, handleGenerate_settled,
    handleChatSubmit_call. simpl.
  rewrite Hquestion, Hidle. reflexivity.
Qed.

Lemma chat_after_failed_generation_sends_placeholder_witness :
  inflight
    (run initialSession
       [ EvSetPrompt (lit "EMA cross"); EvGenerate;
         EvGenerateSettled 0 (Throw (mkError None)) 1 2 3 4;
         EvSetChatInput (lit "why?"); EvChatSubmit 5 6 ])
  = [ PendingChat (lit "// Error generating code.") [] (lit "why?") [] ].
Proof.
  apply (chat_after_failed_generation_sends_placeholder
           (run initialSession [EvSetPrompt (lit "EMA cross"); EvGenerate])
           0 (lit "EMA cross") EXPERT_ADVISOR [] (mkError None)
           (lit "why?") 1 2 3 4 5 6);
    [reflexivity | discriminate | reflexivity].
Defined.

End GenerationFailures.

(** ** Size of the prompts *)

Section PromptSizes.

Lemma CodeType_value_length (type : CodeType) :
  (length (CodeType_value type) <= 14)%nat.
Proof. destruct type; simpl; lia. Qed.

Lemma generate_doc_section_length (d : jsstring) :
  (Z.of_nat (length (generate_doc_section d)) <= 500438)%Z.
Proof.
  unfold generate_doc_section. rewrite slice_first by lia.
  assert (Hx : (Z.of_nat (length (firstn (Z.to_nat 500000) d)) <= 500000)%Z)
    by (rewrite length_firstn; lia).
  revert Hx. generalize (firstn (Z.to_nat 500000) d). intros x Hx.
  unfold unlines. rewrite !length_app. simpl length. lia.
Qed.

Lemma chat_doc_section_length (d : jsstring) :
  (Z.of_nat (length (chat_doc_section d)) <= 100039)%Z.
Proof.
  unfold chat_doc_section. rewrite slice_first by lia.
  assert (Hx : (Z.of_nat (length (firstn (Z.to_nat 100000) d)) <= 100000)%Z)
    by (rewrite length_firstn; lia).
  revert Hx. generalize (firstn (Z.to_nat 100000) d). intros x Hx.
  unfold unlines. rewrite !length_app. simpl length. lia.
Qed.

(** X11: whatever the size of the documentation, a generation prompt is
    at most 500573 code units longer than the user's prompt, and a chat
    prompt at most 100154 code units longer than the code, the
    conversation context and the question together. *)
Theorem prompt_sizes_are_bounded
    (prompt : jsstring) (type : CodeType) (doc : option jsstring)
    (currentCode userMessage : jsstring) (chatHistory : list ChatMessage) :
  (Z.of_nat (length (generate_fullPrompt prompt type doc))
   <= Z.of_nat (length prompt) + 500573)%Z
  /\ (Z.of_nat
        (length (chat_fullPrompt currentCode chatHistory userMessage doc))
      <= Z.of_nat (length currentCode)
         + Z.of_nat (length (conversationContext chatHistory))
         + Z.of_nat (length userMessage) + 100154)%Z.
Proof.
  assert (Hhead :
    (Z.of_nat (length (generate_head prompt type))
     <= Z.of_nat (length prompt) + 70)%Z).
  { pose proof (CodeType_value_length type) as Hty.
    unfold generate_head, unlines. rewrite !length_app. simpl length. lia. }
  assert (Htail : length generate_tail = 65%nat) by reflexivity.
  assert (Hchat :
    (Z.of_nat (length (chat_head currentCode chatHistory userMessage))
     = Z.of_nat (length currentCode)
       + Z.of_nat (length (conversationContext chatHistory))
       + Z.of_nat (length userMessage) + 115)%Z).
  { unfold chat_head, unlines. rewrite !length_app. simpl length. lia. }
  split.
  - unfold generate_fullPrompt.
    destruct doc as [d|]; [destruct (truthy d)|];
      rewrite ?length_app, Htail;
      try pose proof (generate_doc_section_length d); lia.
  - unfold chat_fullPrompt.
    destruct doc as [d|]; [destruct (truthy d)|];
      rewrite ?length_app;
      try pose proof (chat_doc_section_length d); lia.
Qed.

End PromptSizes.

(** ** Identifiers and the clock *)

Section Identifiers.

Lemma lit_inj (a b : string) : lit a = lit b -> a = b.
Proof.
  unfold lit. intros H.
  rewrite <- (string_of_list_ascii_of_string a),
          <- (string_of_list_ascii_of_string b).
  f_equal. revert H.
  generalize (list_ascii_of_string a) (list_ascii_of_string b).
  intros x. induction x as [|c x IH]; intros [|d y] H; simpl in H;
    try discriminate; [reflexivity|].
  inversion H as [[Hc Hrest]]. f_equal; [|apply IH; exact Hrest].
  rewrite <- (ascii_N_embedding c), <- (ascii_N_embedding d), Hc.
  reflexivity.
Qed.

Definition digits (n : N) : jsstring :=
  lit (NilEmpty.string_of_uint (N.to_uint n)).

Lemma digits_inj (n m : N) : digits n = digits m -> n = m.
Proof.
  unfold digits. intros H. apply lit_inj in H.
  apply DecimalN.Unsigned.to_uint_inj.
  pose proof (NilEmpty.usu (N.to_uint n)) as Hn.
  pose proof (NilEmpty.usu (N.to_uint m)) as Hm.
  rewrite H in Hn. congruence.
Qed.

Lemma digits_no_sign (n : N) (x : jsstring) : digits n <> lit "-" ++ x.
Proof.
  unfold digits. destruct (N.to_uint n); simpl; discriminate.
Qed.

Lemma toString_inj (a b : Z) : toString a = toString b -> a = b.
Proof.
  unfold toString. fold (digits (Z.abs_N a)). fold (digits (Z.abs_N b)).
  destruct (a <? 0)%Z eqn:Ha, (b <? 0)%Z eqn:Hb; intros H.
  - apply app_inv_head in H. apply digits_inj in H. lia.
  - symmetry in H. apply digits_no_sign in H. contradiction.
  - apply digits_no_sign in H. contradiction.
  - apply digits_inj in H. lia.
Qed.

(** X12: sending a question adds the user's turn at the end of the chat
    list as it then is, and a reply adds the assistant's turn at the end of
    the list as it is when the reply arrives, whatever happened in
    between.  When the clock reading taken for the reply is not earlier
    than the one taken for the question, the two turns carry different
    identifiers. *)
Theorem reply_id_differs_from_its_question
    (s s' : Session) (n : nat)
    (contextCode : jsstring) (chatHistory : list ChatMessage)
    (userMessage doc : jsstring)
    (result : ChatResult) (now1 now2 now3 now4 : Z) :
  trim (chatInput (ui s)) <> [] ->
  isChatLoading (ui s) = false ->
  nth_error (inflight s') n
  = Some (PendingChat contextCode chatHistory userMessage doc) ->
  (now1 <= now3)%Z ->
  exists question answer,
    chatMessages (ui (step s (EvChatSubmit now1 now2)))
    = chatMessages (ui s) ++ [question]
    /\ chatMessages (ui (step s' (EvChatSettled n (Ok result) now3 now4)))
       = chatMessages (ui s') ++ [answer]
    /\ role question = user /\ content question = chatInput (ui s)
    /\ role answer = model /\ content answer = reply result
    /\ id question <> id answer.
Proof.
  intros Hinput Hidle Hn Hclock. apply truthy_nonempty in Hinput.
  destruct s as [st calls]. destruct s' as [st' calls'].
  cbn [ui inflight] in *.
  exists {| id := toString now1; role := user; content := chatInput st;
            hasCodeUpdate := None; timestamp := now2 |}.
  exists {| id := toString (now3 + 1); role := model;
            content := reply result;
            hasCodeUpdate := Some (truthy_opt (updatedCode result));
            timestamp := now4 |}.
  split; [|split].
  - unfold step, calling, handleChatSubmit_call. cbn [ui].
    rewrite Hinput, Hidle. reflexivity.
  - unfold step. cbn [inflight]. rewrite Hn.
    unfold settling, handleChatSubmit_settled, updChatMessages. cbn [ui].
    destruct (updatedCode result) as [c|]; [destruct (truthy c) eqn:Hc|];
      simpl; rewrite ?Hc; reflexivity.
  - simpl. repeat split. intros Hid. apply toString_inj in Hid. lia.
Qed.

Lemma reply_id_differs_from_its_question_witness :
  exists question answer,
    chatMessages (ui (run initialSession question_sent))
    = chatMessages (ui (run initialSession
                          (first_generation
                           ++ [EvSetChatInput (lit "add a stop loss")])))
      ++ [question]
    /\ chatMessages
         (ui (step (run initialSession question_sent)
                (EvChatSettled 0 (Ok (mkChatResult (lit "Done.") None))
                   2000 2000)))
       = chatMessages (ui (run initialSession question_sent)) ++ [answer]
    /\ id question <> id answer.
Proof.
  destruct (reply_id_differs_from_its_question
              (run initialSession
                 (first_generation
                  ++ [EvSetChatInput (lit "add a stop loss")]))
              (run initialSession question_sent) 0
              (lit "void OnTick() {}")
              (chatMessages
                 (ui (run initialSession first_generation)))
              (lit "add a stop loss") []
              (mkChatResult (lit "Done.") None) 2000 2000 2000 2000)
    as (question & answer & Hq & Ha & _ & _ & _ & _ & Hid).
  - discriminate.
  - reflexivity.
  - reflexivity.
  - lia.
  - exists question, answer. split; [exact Hq|]. split; [exact Ha|].
    exact Hid.
Defined.

End Identifiers.

(** ** What holds in every reachable session *)

Section SessionInvariants.

Lemma remove_nth_cons {A : Type} (a : A) (l : list A) (n : nat) :
  remove_nth (S n) (a :: l) = a :: remove_nth n l.
Proof. reflexivity. Qed.

Lemma filter_length_remove_nth {A : Type} (f : A -> bool) (l : list A) :
  forall (n : nat) (x : A),
    nth_error l n = Some x ->
    length (filter f l)
    = (length (filter f (remove_nth n l)) + (if f x then 1 else 0))%nat.
Proof.
  induction l as [|a l IH]; intros [|n] x Hn; simpl in Hn; try discriminate.
  - inversion Hn; subst. unfold remove_nth. simpl.
    destruct (f x); simpl; lia.
  - rewrite remove_nth_cons. simpl. specialize (IH n x Hn).
    destruct (f a); simpl; lia.
Qed.

Lemma Forall_remove_nth {A : Type} (P : A -> Prop) (l : list A) :
  forall n, Forall P l -> Forall P (remove_nth n l).
Proof.
  induction l as [|a l IH]; intros [|n] H; try exact H.
  - unfold remove_nth. simpl. inversion H; assumption.
  - rewrite remove_nth_cons. inversion H; subst. constructor; auto.
Qed.

Lemma filter_length_snoc {A : Type} (f : A -> bool) (l : list A) (x : A) :
  length (filter f (l ++ [x]))
  = (length (filter f l) + (if f x then 1 else 0))%nat.
Proof.
  rewrite filter_app, length_app. simpl. destruct (f x); reflexivity.
Qed.

Lemma processFile_call_no_chat (file : File) (st : State) :
  isChatLoading (fst (processFile_call file st)) = isChatLoading st
  /\ match snd (processFile_call file st) with
     | Some call => is_chat_call call = false
     | None => True
     end.
Proof.
  unfold processFile_call.
  destruct (negb (eqb_str (file_type file) (lit "application/pdf")));
    simpl; auto.
Qed.

Lemma handleGenerate_call_no_chat (st : State) :
  isChatLoading (fst (handleGenerate_call st)) = isChatLoading st
  /\ match snd (handleGenerate_call st) with
     | Some call => is_chat_call call = false
     | None => True
     end.
Proof.
  unfold handleGenerate_call.
  destruct (negb (truthy (trim (prompt st)))); simpl; auto.
Qed.

Lemma calling_no_chat (f : State -> State * option Pending) (s : Session) :
  isChatLoading (fst (f (ui s))) = isChatLoading (ui s)
  /\ match snd (f (ui s)) with
     | Some call => is_chat_call call = false
     | None => True
     end ->
  chat_calls s = (if isChatLoading (ui s) then 1 else 0)%nat ->
  chat_calls (calling f s)
  = (if isChatLoading (ui (calling f s)) then 1 else 0)%nat.
Proof.
  intros [Hflag Hcall] IH. unfold chat_calls, calling in *. simpl.
  rewrite Hflag. destruct (snd (f (ui s))) as [call|]; [|exact IH].
  rewrite filter_length_snoc, Hcall, IH. lia.
Qed.

Lemma settling_non_chat (n : nat) (f : State -> State) (s : Session)
    (call : Pending) :
  nth_error (inflight s) n = Some call ->
  is_chat_call call = false ->
  isChatLoading (f (ui s)) = isChatLoading (ui s) ->
  chat_calls s = (if isChatLoading (ui s) then 1 else 0)%nat ->
  chat_calls (settling n f s)
  = (if isChatLoading (ui (settling n f s)) then 1 else 0)%nat.
Proof.
  intros Hn Hcall Hflag IH. unfold chat_calls, settling in *. simpl.
  rewrite Hflag, <- IH.
  rewrite (filter_length_remove_nth is_chat_call _ _ _ Hn), Hcall. lia.
Qed.

Lemma isChatLoading_generate_settled (prompt : jsstring) (type : CodeType)
    (outcome : result GenerateResult) (now1 now2 now3 now4 : Z)
    (st : State) :
  isChatLoading
    (handleGenerate_settled prompt type outcome now1 now2 now3 now4 st)
  = isChatLoading st.
Proof. destruct outcome; reflexivity. Qed.

Lemma isChatLoading_pdf_settled (outcome : result jsstring) (st : State) :
  isChatLoading (processFile_settled outcome st) = isChatLoading st.
Proof. destruct outcome; reflexivity. Qed.

Lemma isChatLoading_chat_settled (outcome : result ChatResult)
    (now1 now2 : Z) (st : State) :
  isChatLoading (handleChatSubmit_settled outcome now1 now2 st) = false.
Proof.
  destruct outcome as [r|e]; [|reflexivity].
  unfold handleChatSubmit_settled.
  destruct (updatedCode r) as [c|]; [destruct (truthy c)|]; reflexivity.
Qed.

(** X13: in every reachable session at most one chat request is in
    flight, and one is in flight exactly while the chat is marked as
    loading. *)
Theorem one_chat_request_at_a_time (s : Session) :
  reachable s ->
  chat_calls s = (if isChatLoading (ui s) then 1 else 0)%nat.
Proof.
  induction 1 as [|s ev Hreach IH]; [reflexivity|].
  destruct ev as [v|v|v|v|file| |inside| |file| | |now1 now2|n now1 now2
                  |n outcome now1 now2 now3 now4|n outcome now1 now2
                  |n getDocument]; unfold step.
  - exact IH.
  - exact IH.
  - exact IH.
  - exact IH.
  - apply calling_no_chat; [|exact IH].
    destruct file as [f|]; [apply processFile_call_no_chat | simpl; auto].
  - exact IH.
  - destruct inside; exact IH.
  - exact IH.
  - apply calling_no_chat; [|exact IH].
    destruct file as [f|]; [|simpl; auto].
    apply (processFile_call_no_chat f (setIsDragging false (ui s))).
  - exact IH.
  - apply calling_no_chat; [apply handleGenerate_call_no_chat | exact IH].
  - unfold chat_calls, calling, handleChatSubmit_call in *.
    destruct (negb (truthy (trim (chatInput (ui s)))) || isChatLoading (ui s))
      eqn:Hguard; simpl; [exact IH|].
    apply orb_false_elim in Hguard. destruct Hguard as [_ Hidle].
    rewrite Hidle in IH. rewrite filter_length_snoc, IH. reflexivity.
  - destruct (nth_error (history (ui s)) n); exact IH.
  - destruct (nth_error (inflight s) n) as [[p ty d| |]|] eqn:Hn;
      try exact IH.
    apply (settling_non_chat _ _ _ _ Hn); [reflexivity| |exact IH].
    apply isChatLoading_generate_settled.
  - destruct (nth_error (inflight s) n) as [[|c h m d|]|] eqn:Hn;
      try exact IH.
    unfold chat_calls, settling in *. cbn [ui inflight].
    rewrite isChatLoading_chat_settled.
    pose proof (filter_length_remove_nth is_chat_call _ _ _ Hn) as Hrem.
    simpl in Hrem. destruct (isChatLoading (ui s)); lia.
  - destruct (nth_error (inflight s) n) as [[| |file]|] eqn:Hn;
      try exact IH.
    apply (settling_non_chat _ _ _ _ Hn); [reflexivity| |exact IH].
    apply isChatLoading_pdf_settled.
Qed.

Lemma one_chat_request_at_a_time_witness :
  chat_calls (run initialSession question_sent) = 1%nat.
Proof.
  apply (one_chat_request_at_a_time (run initialSession question_sent)).
  apply reachable_run. constructor.
Defined.

Lemma truthy_trim_nonblank (x : jsstring) :
  truthy (trim x) = true -> trim x <> [].
Proof. destruct (trim x); [discriminate | discriminate]. Qed.

Lemma guard_open_nonblank (x : jsstring) (busy : bool) :
  negb (truthy (trim x)) || busy = false -> trim x <> [].
Proof.
  intros H. apply orb_false_elim in H. destruct H as [H _].
  apply negb_false_iff in H. apply truthy_trim_nonblank, H.
Qed.

(** How one event changes the chat list, with the role of what it adds. *)
Lemma chat_step_cases (s : Session) (ev : Event) :
  chatMessages (ui (step s ev)) = chatMessages (ui s)
  \/ (exists turn,
         chatMessages (ui (step s ev)) = chatMessages (ui s) ++ [turn]
         /\ (role turn = user -> trim (content turn) <> []))
  \/ (exists turn,
         chatMessages (ui (step s ev)) = [turn] /\ role turn = model).
Proof.
  destruct s as [st calls].
  destruct ev as [v|v|v|v|file| |inside| |file| | |now1 now2|n now1 now2
                  |n outcome now1 now2 now3 now4|n outcome now1 now2
                  |n getDocument]; unfold step; cbn [ui inflight].
  - left; reflexivity.
  - left; reflexivity.
  - left; reflexivity.
  - left; reflexivity.
  - left. destruct file as [f|]; [|reflexivity].
    unfold calling, handleFileChange, processFile_call. cbn [ui].
    destruct (negb (eqb_str (file_type f) (lit "application/pdf")));
      reflexivity.
  - left; reflexivity.
  - left. destruct inside; reflexivity.
  - left; reflexivity.
  - left. destruct file as [f|]; [|reflexivity].
    unfold calling, handleDrop, processFile_call. cbn [ui].
    destruct (negb (eqb_str (file_type f) (lit "application/pdf")));
      reflexivity.
  - left; reflexivity.
  - left. unfold calling, handleGenerate_call. cbn [ui].
    destruct (negb (truthy (trim (prompt st)))); reflexivity.
  - unfold calling, handleChatSubmit_call. cbn [ui].
    destruct (negb (truthy (trim (chatInput st))) || isChatLoading st)
      eqn:Hguard; [left; reflexivity|].
    right; left. eexists. split; [reflexivity|].
    intros _. exact (guard_open_nonblank _ _ Hguard).
  - destruct (nth_error (history st) n) as [item|]; [|left; reflexivity].
    right; right. eexists. split; reflexivity.
  - destruct (nth_error calls n) as [[p ty d| |]|];
      try (left; reflexivity).
    destruct outcome as [r|e]; [|left; reflexivity].
    right; right. eexists. split; reflexivity.
  - destruct (nth_error calls n) as [[|c h m d|]|];
      try (left; reflexivity).
    right; left. unfold settling, handleChatSubmit_settled. cbn [ui].
    destruct outcome as [r|e].
    + destruct (updatedCode r) as [c'|]; [destruct (truthy c')|];
        (eexists; split; [reflexivity | intros Hrole; discriminate Hrole]).
    + eexists; split; [reflexivity | intros Hrole; discriminate Hrole].
  - destruct (nth_error calls n) as [[| |file]|]; try (left; reflexivity).
    left. unfold settling, processFile_settled. cbn [ui].
    destruct (PdfHelper.extractTextFromPdf getDocument file); reflexivity.
Qed.

(** X14: in every reachable session each turn of the user in the chat
    list has a text that is not blank: a question of white space only is
    never recorded. *)
Theorem user_turns_are_never_blank (s : Session) :
  reachable s ->
  Forall (fun turn => role turn = user -> trim (content turn) <> [])
    (chatMessages (ui s)).
Proof.
  induction 1 as [|s ev Hreach IH]; [constructor|].
  destruct (chat_step_cases s ev)
    as [-> | [(turn & -> & Hturn) | (turn & -> & Hturn)]].
  - exact IH.
  - apply Forall_app. split; [exact IH|]. constructor; [exact Hturn|].
    constructor.
  - constructor; [|constructor]. intros Hrole. congruence.
Qed.

Lemma user_turns_are_never_blank_witness :
  Forall (fun turn => role turn = user -> trim (content turn) <> [])
    (chatMessages (ui (run initialSession question_sent))).
Proof.
  apply (user_turns_are_never_blank (run initialSession question_sent)).
  apply reachable_run. constructor.
Defined.

(** How one event changes the list of promises in flight. *)
Lemma inflight_step_cases (s : Session) (ev : Event) :
  inflight (step s ev) = inflight s
  \/ (exists call,
         inflight (step s ev) = inflight s ++ [call]
         /\ forall x, sent_for call = Some x -> trim x <> [])
  \/ (exists n, inflight (step s ev) = remove_nth n (inflight s)).
Proof.
  destruct s as [st calls].
  destruct ev as [v|v|v|v|file| |inside| |file| | |now1 now2|n now1 now2
                  |n outcome now1 now2 now3 now4|n outcome now1 now2
                  |n getDocument]; unfold step; cbn [ui inflight];
    try (left; reflexivity).
  - destruct file as [f|]; [|left; reflexivity].
    unfold calling, handleFileChange, processFile_call. cbn [ui inflight].
    destruct (negb (eqb_str (file_type f) (lit "application/pdf")));
      [left; reflexivity|].
    right; left. eexists. split; [reflexivity|]. discriminate.
  - destruct file as [f|]; [|left; reflexivity].
    unfold calling, handleDrop, processFile_call. cbn [ui inflight].
    destruct (negb (eqb_str (file_type f) (lit "application/pdf")));
      [left; reflexivity|].
    right; left. eexists. split; [reflexivity|]. discriminate.
  - unfold calling, handleGenerate_call. cbn [ui inflight].
    destruct (negb (truthy (trim (prompt st)))) eqn:Hguard;
      [left; reflexivity|].
    right; left. eexists. split; [reflexivity|].
    intros x Hx. inversion Hx; subst x.
    apply negb_false_iff in Hguard. apply truthy_trim_nonblank, Hguard.
  - unfold calling, handleChatSubmit_call. cbn [ui inflight].
    destruct (negb (truthy (trim (chatInput st))) || isChatLoading st)
      eqn:Hguard; [left; reflexivity|].
    right; left. eexists. split; [reflexivity|].
    intros x Hx. inversion Hx; subst x.
    exact (guard_open_nonblank _ _ Hguard).
  - destruct (nth_error (history st) n); left; reflexivity.
  - destruct (nth_error calls n) as [[p ty d| |]|];
      try (left; reflexivity).
    right; right. exists n. reflexivity.
  - destruct (nth_error calls n) as [[|c h m d|]|];
      try (left; reflexivity).
    right; right. exists n. reflexivity.
  - destruct (nth_error calls n) as [[| |file]|]; try (left; reflexivity).
    right; right. exists n. reflexivity.
Qed.

(** X15: in every reachable session each history record has a prompt
    that is not blank, and so has every generation or chat request in
    flight: nothing is ever sent, or recorded, for an input of white space
    only. *)
Theorem blank_input_is_never_sent_or_recorded (s : Session) :
  reachable s ->
  Forall (fun item => trim (hi_prompt item) <> []) (history (ui s))
  /\ Forall (fun call => forall x, sent_for call = Some x -> trim x <> [])
       (inflight s).
Proof.
  induction 1 as [|s ev Hreach [IHhist IHcalls]];
    [split; constructor|].
  split.
  - pose proof (history_step s ev) as Hstep.
    destruct ev; try (rewrite Hstep; exact IHhist).
    destruct outcome as [r|e]; [|rewrite Hstep; exact IHhist].
    destruct (nth_error (inflight s) n) as [[p ty d| |]|] eqn:Hn;
      try (rewrite Hstep; exact IHhist).
    rewrite Hstep. constructor; [|exact IHhist]. cbn [hi_prompt].
    apply nth_error_In in Hn.
    rewrite Forall_forall in IHcalls.
    apply (IHcalls _ Hn p). reflexivity.
  - destruct (inflight_step_cases s ev)
      as [-> | [(call & -> & Hcall) | (n & ->)]].
    + exact IHcalls.
    + apply Forall_app. split; [exact IHcalls|].
      constructor; [exact Hcall | constructor].
    + apply Forall_remove_nth. exact IHcalls.
Qed.

Lemma blank_input_is_never_sent_or_recorded_witness :
  Forall (fun item => trim (hi_prompt item) <> [])
    (history (ui (run initialSession question_sent))).
Proof.
  apply (blank_input_is_never_sent_or_recorded
           (run initialSession question_sent)).
  apply reachable_run. constructor.
Defined.

End SessionInvariants.

(** ** Replies, restoring, and the title *)

Section RepliesAndRestoring.

(** X16: the turn added for a reply is flagged as a code update exactly
    when the reply carries code that is not empty, and exactly then the
    code pane takes that code; a reply whose [updatedCode] is missing or
    the empty string leaves the pane as it is. *)
Theorem code_update_flag_matches_the_pane
    (result : ChatResult) (now1 now2 : Z) (st : State) :
  let st' := handleChatSubmit_settled (Ok result) now1 now2 st in
  exists turn,
    chatMessages st' = chatMessages st ++ [turn]
    /\ content turn = reply result
    /\ (hasCodeUpdate turn = Some true <->
        exists code, updatedCode result = Some code /\ code <> [])
    /\ (hasCodeUpdate turn = Some true ->
        updatedCode result = Some (currentCode st'))
    /\ (hasCodeUpdate turn <> Some true -> currentCode st' = currentCode st).
Proof.
  unfold handleChatSubmit_settled, updChatMessages.
  destruct (updatedCode result) as [[|c code]|] eqn:Hcode; simpl;
    eexists; (split; [reflexivity|]); (split; [reflexivity|]);
    cbn [hasCodeUpdate]; repeat split; try congruence; try discriminate.
  - intros (code & Heq & Hne). congruence.
  - intros _. eexists. split; [reflexivity | discriminate].
  - intros (code & Heq & _). discriminate.
Qed.

Lemma code_update_flag_matches_the_pane_witness :
  exists turn,
    chatMessages
      (handleChatSubmit_settled
         (Ok (mkChatResult (lit "Done.") (Some []))) 2500 2500 initialState)
    = [] ++ [turn]
    /\ hasCodeUpdate turn = Some false
    /\ currentCode
         (handleChatSubmit_settled
            (Ok (mkChatResult (lit "Done.") (Some []))) 2500 2500
            initialState)
       = currentCode initialState.
Proof.
  destruct (code_update_flag_matches_the_pane
              (mkChatResult (lit "Done.") (Some [])) 2500 2500 initialState)
    as (turn & Hlist & _ & Hflag & _ & Hpane).
  exists turn. split; [exact Hlist|].
  assert (Hno : hasCodeUpdate turn <> Some true).
  { intros Htrue. apply Hflag in Htrue.
    destruct Htrue as (code & Hcode & Hne). inversion Hcode. congruence. }
  split; [|exact (Hpane Hno)].
  simpl in Hlist. inversion Hlist. reflexivity.
Defined.

Lemma run_keeps_history (s : Session) (later : list Event) :
  forallb (fun ev => negb (is_generation_result ev)) later = true ->
  history (ui (run s later)) = history (ui s).
Proof.
  revert s. induction later as [|ev later IH]; intros s Hlater;
    [reflexivity|].
  simpl in Hlater. apply andb_true_iff in Hlater.
  destruct Hlater as [Hev Hlater].
  simpl. rewrite IH by exact Hlater.
  pose proof (history_step s ev) as Hstep.
  destruct ev; try exact Hstep.
  destruct outcome; [discriminate Hev | exact Hstep].
Qed.

(** X17: after a generation has delivered its result, and whatever
    happens next short of another generation result (typing, chatting,
    uploading, switching tabs), restoring the first history entry brings
    back that generation: its code in the pane, and the prompt and
    artifact kind the request was sent with. *)
Theorem restore_brings_back_the_generation
    (s : Session) (n : nat) (prompt0 : jsstring) (type : CodeType)
    (doc : jsstring) (result : GenerateResult)
    (now1 now2 now3 now4 now5 now6 : Z) (later : list Event) :
  nth_error (inflight s) n = Some (PendingGenerate prompt0 type doc) ->
  forallb (fun ev => negb (is_generation_result ev)) later = true ->
  let generated :=
    run (step s (EvGenerateSettled n (Ok result) now1 now2 now3 now4))
      later in
  let restored := step generated (EvRestore 0 now5 now6) in
  currentCode (ui restored) = gr_code result
  /\ prompt (ui restored) = prompt0
  /\ codeType (ui restored) = type
  /\ history (ui restored) = history (ui generated).
Proof.
  intros Hn Hlater generated restored.
  assert (Hhist : history (ui generated)
                  = {| hi_id := toString now1;
                       hi_prompt := prompt0;
                       hi_type := type;
                       hi_code := gr_code result;
                       hi_timestamp := now2 |} :: history (ui s)).
  { subst generated. rewrite run_keeps_history by exact Hlater.
    pose proof (history_step s
                  (EvGenerateSettled n (Ok result) now1 now2 now3 now4))
      as Hstep.
    cbv beta iota in Hstep. rewrite Hn in Hstep. exact Hstep. }
  subst restored. unfold step.
  replace (nth_error (history (ui generated)) 0)
    with (Some {| hi_id := toString now1;
                  hi_prompt := prompt0;
                  hi_type := type;
                  hi_code := gr_code result;
                  hi_timestamp := now2 |})
    by (rewrite Hhist; reflexivity).
  repeat split.
Qed.

Lemma restore_brings_back_the_generation_witness :
  currentCode
    (ui (step (run initialSession question_sent) (EvRestore 0 3000 3000)))
  = lit "void OnTick() {}".
Proof.
  apply (restore_brings_back_the_generation
           (run initialSession
              [EvSetPrompt (lit "EMA cross"); EvGenerate])
           0 (lit "EMA cross") EXPERT_ADVISOR []
           (mkGenerateResult (lit "void OnTick() {}") (lit "Trades EMA."))
           1000 1000 1000 1000 3000 3000
           [EvSetChatInput (lit "add a stop loss"); EvChatSubmit 2000 2000]);
    reflexivity.
Defined.

(** X18: the title handed to the code pane never contains a space: the
    one space an artifact kind can hold is removed, and the suffix has
    none. *)
Theorem displayTitle_has_no_space (st : State) :
  existsb (N.eqb 32) (displayTitle st) = false.
Proof.
  unfold displayTitle. destruct (codeType st); reflexivity.
Qed.

End RepliesAndRestoring.
